(** * switch2idea: a verification model of the editor-jump extension

    The development follows the TypeScript sources:
    - [types.ts]              the data model ([EditorConfig], [JumpContext]);
    - [configManager.ts]      [ConfigManager.getEditors];
    - [jumpHandlerFactory.ts] the handler registry;
    - [handlers/jetbrainsHandler.ts] command construction, default paths and
      the classification of launch failures;
    - [editorTreeView.ts]     the sidebar items and the save/remove steps;
    - [extension.ts]          the open-file command handler.

    Conventions.  A JavaScript string is a [string] of the Standard Library,
    read as the UTF-8 bytes of a well-formed text.  An optional field
    ([x?: T], or a value that may be [undefined]) is an [option].  A number is
    an integer [Z] (line and column numbers are integers in every flow of the
    extension).  A [throw new Error(m)] is the [Throw m] case of [result]. *)

From Stdlib Require Import ZArith String Ascii List Bool Lia DecimalString.
From stdpp Require Import base option list gmap strings.

Local Open Scope string_scope.
Local Open Scope list_scope.
Local Open Scope Z_scope.

(** ** The host language's primitives used by the sources *)

Module JS.

(** [s1 + s2], and the pieces of a template literal. *)
Notation "a ^^ b" := (String.append a b)
  (at level 60, right associativity, only parsing).

(** The double quote character and the one-character string holding it. *)
Definition dquoteChar : ascii := ascii_of_nat 34.
Definition dquote : string := String dquoteChar EmptyString.

(** Truthiness of a string: every string but the empty one. *)
Definition truthy (s : string) : bool :=
  match s with
  | EmptyString => false
  | String _ _ => true
  end.

(** The value of an optional string when it is truthy: [undefined] and the
    empty string are falsy. *)
Definition asTruthy (o : option string) : option string :=
  match o with
  | Some s => if truthy s then Some s else None
  | None => None
  end.

(** The value of an optional number when it is truthy: [undefined] and [0]
    are falsy. *)
Definition asTruthyNum (o : option Z) : option Z :=
  match o with
  | Some n => if n =? 0 then None else Some n
  | None => None
  end.

(** [a || b] on strings, [a] possibly undefined. *)
Definition orElse (a : option string) (b : string) : string :=
  match asTruthy a with
  | Some s => s
  | None => b
  end.

(** [`${n}`] for an integer [n]: its decimal digits, after a minus sign
    when it is negative (what JavaScript prints for integers below 10^21 in
    absolute value). *)
Definition numToString (n : Z) : string :=
  NilZero.string_of_int (Z.to_int n).

(** [`${v}`] for a string that may be undefined. *)
Definition template (o : option string) : string :=
  match o with
  | Some s => s
  | None => "undefined"
  end.

(** [s.includes(k)]: [k] occurs in [s] as a contiguous substring. *)
Fixpoint includes (s k : string) : bool :=
  String.prefix k s ||
  match s with
  | EmptyString => false
  | String _ s' => includes s' k
  end.

(** [s.slice(n)]: [s] without its first [n] characters. *)
Fixpoint slice (n : nat) (s : string) : string :=
  match n, s with
  | O, _ => s
  | S n', String _ s' => slice n' s'
  | S _, EmptyString => EmptyString
  end.

(** [s.replace(pat, rep)] with a string pattern: the first occurrence of
    [pat] only.  ([rep] holds no [$] in the sources.) *)
Fixpoint replace (s pat rep : string) : string :=
  if String.prefix pat s then rep ^^ slice (String.length pat) s
  else match s with
       | EmptyString => EmptyString
       | String c s' => String c (replace s' pat rep)
       end.

Definition isUpper (c : ascii) : bool :=
  let n := nat_of_ascii c in (65 <=? n)%nat && (n <=? 90)%nat.

Definition lowerChar (c : ascii) : ascii :=
  if isUpper c then ascii_of_nat (nat_of_ascii c + 32) else c.

(** [s.toLowerCase()].  The letters [A]-[Z] are mapped to [a]-[z]; every
    other byte is kept.  The result is only searched for the keys of
    [appNameMap], lower-case ASCII words: a character outside ASCII has a
    lower-case form outside ASCII too, or one ([i] before a combining dot,
    [k]) that completes none of these keys, so the bytes kept here decide no
    search. *)
Fixpoint toLowerCase (s : string) : string :=
  match s with
  | EmptyString => EmptyString
  | String c s' => String (lowerChar c) (toLowerCase s')
  end.

(** The characters [encodeURIComponent] leaves alone:
    [A-Z a-z 0-9 - _ . ! ~ * ' ( )]. *)
Definition unreserved (c : ascii) : bool :=
  let n := nat_of_ascii c in
  ((65 <=? n) && (n <=? 90) || (97 <=? n) && (n <=? 122) ||
   (48 <=? n) && (n <=? 57) ||
   (n =? 45) || (n =? 95) || (n =? 46) || (n =? 33) || (n =? 126) ||
   (n =? 42) || (n =? 39) || (n =? 40) || (n =? 41))%nat.

Definition hexDigit (n : nat) : ascii :=
  if (n <? 10)%nat then ascii_of_nat (48 + n) else ascii_of_nat (55 + n).

Definition percentEncode (c : ascii) : string :=
  let n := nat_of_ascii c in
  String "%" (String (hexDigit (n / 16)) (String (hexDigit (n mod 16)) EmptyString)).

(** [encodeURIComponent(s)]: each byte of the UTF-8 text outside the
    unreserved set becomes [%XX] (upper-case hexadecimal). *)
Fixpoint encodeURIComponent (s : string) : string :=
  match s with
  | EmptyString => EmptyString
  | String c s' =>
      (if unreserved c then String c EmptyString else percentEncode c)
        ^^ encodeURIComponent s'
  end.

(** The character [c] occurs in [s]. *)
Fixpoint includesChar (s : string) (c : ascii) : bool :=
  match s with
  | EmptyString => false
  | String d s' => Ascii.eqb d c || includesChar s' c
  end.

End JS.
Import JS.

(** ** types.ts *)

Inductive EditorType : Set := jetbrains | custom.

(** The tag as the string it is at run time. *)
Definition typeName (t : EditorType) : string :=
  match t with
  | jetbrains => "jetbrains"
  | custom => "custom"
  end.

Record EditorConfig : Set := mkEditorConfig {
  name : string;
  type : EditorType;
  path : string;
  urlScheme : option string
}.

Record JumpContext : Set := mkJumpContext {
  filePath : option string;
  projectPath : option string;
  line : option Z;
  column : option Z
}.

(** The outcome of a function that may [throw new Error(message)]. *)
Inductive result (A : Type) : Type :=
| Return (a : A)
| Throw (message : string).
Arguments Return {A} a.
Arguments Throw {A} message.

(** ** The configuration store (namespace [switch2idea]) *)

Record Configuration : Set := mkConfiguration {
  editors : option (list EditorConfig);
  ideaPath : option string;
  showTreeView : option bool
}.

(** ** configManager.ts *)

Module ConfigManager.

Definition getDefaultEditors : list EditorConfig :=
  [ {| name := "IntelliJ IDEA"; type := jetbrains;
       path := EmptyString; urlScheme := Some "idea" |} ].

(** [editors && editors.length > 0] *)
Definition nonEmptyList (o : option (list EditorConfig)) : bool :=
  match o with
  | Some l => (0 <? length l)%nat
  | None => false
  end.

Definition getEditors (config : Configuration) : list EditorConfig :=
  let editors := editors config in
  if nonEmptyList editors then default [] editors
  else
    match asTruthy (ideaPath config) with
    | Some legacyPath =>
        [ {| name := "IntelliJ IDEA"; type := jetbrains;
             path := legacyPath; urlScheme := Some "idea" |} ]
    | None => getDefaultEditors
    end.

End ConfigManager.

(** ** handlers/jetbrainsHandler.ts *)

(** What the handler reads from its operating system: [os.platform()],
    [process.env.LOCALAPPDATA] and [os.homedir()]. *)
Record Os : Set := mkOs {
  platform : string;
  LOCALAPPDATA : option string;
  homedir : string
}.

(** The error handed to the callback of [child_process.exec]. *)
Record ExecException : Set := mkExecException {
  message : string;
  code : option Z
}.

(** What the user sees, and the view refreshes that are fired. *)
Inductive Effect : Set :=
| ShowErrorMessage (text : string)
| ShowInformationMessage (text : string)
| ShowWarningMessage (text : string)
| Refresh.

(** How a promise of [void] settles. *)
Inductive Settled : Set :=
| Resolved
| Rejected (reason : string).

Module JetBrainsHandler.

(** [errorMessages]; [l10n.t] puts its arguments at [{0}] and [{1}] of the
    template. *)
Module errorMessages.
Definition noFileOrProject : string := "No file or project path provided!".
Definition editorNotFound (name path : string) : string :=
  "Cannot launch " ^^ name ^^ ": " ^^ dquote ^^ path ^^ dquote
    ^^ " not found. Please check the editor path config.".
Definition executionFailed (name error : string) : string :=
  "Failed to launch " ^^ name ^^ ": " ^^ error.
End errorMessages.

Record AppInfo : Set := mkAppInfo { mac : string; win : string; linux : string }.

Definition ideaInfo : AppInfo := mkAppInfo "IntelliJ IDEA" "idea64.exe" "idea.sh".

(** [appNameMap], in the order of its keys ([Object.entries] follows it). *)
Definition appNameMap : list (string * AppInfo) :=
  [ ("intellij idea", ideaInfo);
    ("webstorm", mkAppInfo "WebStorm" "webstorm64.exe" "webstorm.sh");
    ("pycharm", mkAppInfo "PyCharm" "pycharm64.exe" "pycharm.sh");
    ("goland", mkAppInfo "GoLand" "goland64.exe" "goland.sh");
    ("phpstorm", mkAppInfo "PhpStorm" "phpstorm64.exe" "phpstorm.sh");
    ("rider", mkAppInfo "Rider" "rider64.exe" "rider.sh");
    ("clion", mkAppInfo "CLion" "clion64.exe" "clion.sh");
    ("rubymine", mkAppInfo "RubyMine" "rubymine64.exe" "rubymine.sh");
    ("datagrip", mkAppInfo "DataGrip" "datagrip64.exe" "datagrip.sh");
    ("android studio", mkAppInfo "Android Studio" "studio64.exe" "studio.sh") ].

(** The [for ... of Object.entries(appNameMap)] loop: [appInfo] is
    overwritten at the first key the name includes, and the loop breaks. *)
Fixpoint findApp (name : string) (entries : list (string * AppInfo))
    (appInfo : AppInfo) : AppInfo :=
  match entries with
  | [] => appInfo
  | (key, value) :: rest =>
      if includes name key then value else findApp name rest appInfo
  end.

(** A check on an entry: its executable name is what [replace] leaves of it
    followed by [64.exe], and its script name what [replace] leaves of it
    followed by [.sh]. *)
Definition slugs_ok (info : AppInfo) : bool :=
  String.eqb (win info) (replace (win info) "64.exe" EmptyString ^^ "64.exe") &&
  String.eqb (linux info) (replace (linux info) ".sh" EmptyString ^^ ".sh").

Definition getDefaultPath (os : Os) (platform : string)
    (editorName : option string) : string :=
  let name := orElse (toLowerCase <$> editorName) "intellij idea" in
  let appInfo := findApp name appNameMap ideaInfo in
  if String.eqb platform "darwin" then mac appInfo
  else if String.eqb platform "win32" then
    template (LOCALAPPDATA os) ^^ "\JetBrains\Toolbox\scripts\"
      ^^ replace (win appInfo) "64.exe" EmptyString
  else if String.eqb platform "linux" then
    homedir os ^^ "/.local/share/JetBrains/Toolbox/scripts/"
      ^^ replace (linux appInfo) ".sh" EmptyString
  else mac appInfo.

Definition buildMacCommand (config : EditorConfig) (context : JumpContext)
    (appPath : string) : result string :=
  let scheme := orElse (urlScheme config) "idea" in
  let url : result string :=
    match asTruthy (filePath context) with
    | Some filePath =>
        let url := scheme ^^ "://open?file=" ^^ encodeURIComponent filePath in
        let url :=
          match asTruthyNum (line context) with
          | Some line => url ^^ "&line=" ^^ numToString line
          | None => url
          end in
        let url :=
          match column context with
          | Some column => url ^^ "&column=" ^^ numToString column
          | None => url
          end in
        Return url
    | None =>
        match asTruthy (projectPath context) with
        | Some projectPath =>
            Return (scheme ^^ "://open?file=" ^^ encodeURIComponent projectPath)
        | None => Throw errorMessages.noFileOrProject
        end
    end in
  match url with
  | Return url =>
      Return ("open -a " ^^ dquote ^^ appPath ^^ dquote ^^ " "
                ^^ dquote ^^ url ^^ dquote)
  | Throw m => Throw m
  end.

Definition buildCliCommand (context : JumpContext) (execPath : string)
    : result string :=
  match asTruthy (filePath context) with
  | Some filePath =>
      let cmd := dquote ^^ execPath ^^ dquote in
      let cmd :=
        match asTruthyNum (line context) with
        | Some line => cmd ^^ " --line " ^^ numToString line
        | None => cmd
        end in
      let cmd :=
        match column context with
        | Some column => cmd ^^ " --column " ^^ numToString column
        | None => cmd
        end in
      let cmd := cmd ^^ " " ^^ dquote ^^ filePath ^^ dquote in
      Return cmd
  | None =>
      match asTruthy (projectPath context) with
      | Some projectPath =>
          Return (dquote ^^ execPath ^^ dquote ^^ " "
                    ^^ dquote ^^ projectPath ^^ dquote)
      | None => Throw errorMessages.noFileOrProject
      end
  end.

Definition buildCommand (os : Os) (config : EditorConfig)
    (context : JumpContext) : result string :=
  let platform := platform os in
  let path :=
    orElse (Some (path config)) (getDefaultPath os platform (Some (name config))) in
  if String.eqb platform "darwin" then buildMacCommand config context path
  else buildCliCommand context path.

(** The test of the callback of [exec] for a missing executable. *)
Definition isNotFound (error : ExecException) : bool :=
  includes (message error) "ENOENT" ||
  includes (message error) "not found" ||
  includes (message error) "找不到" ||
  match code error with
  | Some c => c =? 127
  | None => false
  end.

(** [executeCommand]: [error] is what [exec] hands to its callback ([None]
    when the process exits with status zero).  The warning written to the
    console for a non-empty standard error is not an effect of the model. *)
Definition executeCommand (os : Os) (error : option ExecException)
    (config : EditorConfig) : list Effect * Settled :=
  match error with
  | Some error =>
      let errorMessage :=
        if isNotFound error then
          let path :=
            orElse (Some (path config))
                   (getDefaultPath os (platform os) (Some (name config))) in
          errorMessages.editorNotFound (name config) path
        else errorMessages.executionFailed (name config) (message error) in
      ([ShowErrorMessage errorMessage], Rejected errorMessage)
  | None => ([], Resolved)
  end.

(** [jump]: [exec] is the operating system running a command line. *)
Definition jump (os : Os) (exec : string -> option ExecException)
    (config : EditorConfig) (context : JumpContext) : list Effect * Settled :=
  match buildCommand os config context with
  | Return command => executeCommand os (exec command) config
  | Throw m => ([], Rejected m)
  end.

End JetBrainsHandler.


(** The [JumpHandler] interface of types.ts: one operation, [jump].  The
    operating system and the behaviour of the launched process are the
    handler's environment. *)
Record JumpHandler : Type := mkJumpHandler {
  jump : Os -> (string -> option ExecException) ->
         EditorConfig -> JumpContext -> list Effect * Settled
}.

(** [new JetBrainsHandler()] *)
Definition jetBrainsHandler : JumpHandler :=
  mkJumpHandler JetBrainsHandler.jump.

(** ** jumpHandlerFactory.ts *)

#[global] Instance EditorType_eq_dec : EqDecision EditorType.
Proof. solve_decision. Defined.

#[global] Instance EditorType_countable : Countable EditorType.
Proof.
  refine (inj_countable'
            (fun t => match t with jetbrains => 0%nat | custom => 1%nat end)
            (fun n => match n with 0%nat => jetbrains | _ => custom end) _).
  intros []; reflexivity.
Defined.

Module JumpHandlerFactory.

Module errorMessages.
Definition unsupportedType (type : string) : string :=
  "Unsupported editor type: " ^^ type
    ^^ ". Currently supported types: jetbrains".
End errorMessages.

(** The private field [handlers]: a [Map] from the type tag to its handler. *)
Record t : Type := mk { handlers : gmap EditorType JumpHandler }.

(** The constructor registers the JetBrains handler. *)
Definition new : t := mk (<[jetbrains := jetBrainsHandler]> ∅).

Definition getHandler (factory : t) (type : EditorType) : result JumpHandler :=
  match handlers factory !! type with
  | Some handler => Return handler
  | None => Throw (errorMessages.unsupportedType (typeName type))
  end.

Definition registerHandler (factory : t) (type : EditorType)
    (handler : JumpHandler) : t :=
  mk (<[type := handler]> (handlers factory)).

End JumpHandlerFactory.

(** ** editorSelector.ts *)

Module EditorSelector.

(** [pick] is the label of the quick-pick entry the user chooses, [None]
    when the prompt is dismissed. *)
Definition selectEditor (pick : option string) (editors : list EditorConfig)
    : option EditorConfig :=
  match editors with
  | [editor] => Some editor
  | _ =>
      match pick with
      | Some label => find (fun e => String.eqb (name e) label) editors
      | None => None
      end
  end.

End EditorSelector.

(** ** The state the commands run in *)

(** The configuration store and, in order, the effects produced so far. *)
Record World : Type := mkWorld {
  configuration : Configuration;
  effects : list Effect
}.

(** A command: a step from a world to a value and the next world. *)
Definition Command (A : Type) : Type := World -> A * World.

#[global] Instance Command_ret : MRet Command := fun A a w => (a, w).
#[global] Instance Command_bind : MBind Command :=
  fun A B f m w => let '(a, w') := m w in f a w'.

(** [vscode.workspace.getConfiguration('switch2idea')] *)
Definition getConfiguration : Command Configuration :=
  fun w => (configuration w, w).

(** [config.update('editors', editors, ConfigurationTarget.Global)] *)
Definition updateEditors (editors : list EditorConfig) : Command unit :=
  fun w =>
    let c := configuration w in
    (tt, mkWorld (mkConfiguration (Some editors) (ideaPath c) (showTreeView c))
                 (effects w)).

Definition emit (e : Effect) : Command unit :=
  fun w => (tt, mkWorld (configuration w) (effects w ++ [e])).

Definition emitAll (es : list Effect) : Command unit :=
  fun w => (tt, mkWorld (configuration w) (effects w ++ es)).

(** ** editorTreeView.ts *)

Record EditorTreeItem : Set := mkEditorTreeItem {
  editor : EditorConfig;
  index : Z
}.

Inductive TreeItem : Set :=
| EditorRow (item : EditorTreeItem)
| AddEditorRow.

Module EditorTreeDataProvider.

Definition refresh : Command unit := emit Refresh.

Definition getChildren (config : Configuration) : list TreeItem :=
  let editors := ConfigManager.getEditors config in
  let items :=
    imap (fun index editor => EditorRow (mkEditorTreeItem editor (Z.of_nat index)))
         editors in
  items ++ [AddEditorRow].

End EditorTreeDataProvider.

(** [editors.splice(start, 1)] on the array [l]: the array that is left.
    A negative [start] counts from the end; the start is clamped to the
    array, and so is the number of deleted elements. *)
Definition splice1 {A : Type} (l : list A) (start : Z) : list A :=
  let len := Z.of_nat (length l) in
  let actualStart :=
    if start <? 0 then Z.max (len + start) 0 else Z.min start len in
  let actualDeleteCount := Z.min (Z.max 1 0) (len - actualStart) in
  take (Z.to_nat actualStart) l
    ++ drop (Z.to_nat (actualStart + actualDeleteCount)) l.

Module EditorConfigCommands.

(** [config.get<EditorConfig[]>('editors') || []] *)
Definition storedEditors (config : Configuration) : list EditorConfig :=
  default [] (editors config).

Definition saveEditor (editor : EditorConfig) : Command unit :=
  config ← getConfiguration;
  let editors := storedEditors config in
  let editors := editors ++ [editor] in
  updateEditors editors;;
  EditorTreeDataProvider.refresh.

Definition removeEditor (index : Z) : Command unit :=
  config ← getConfiguration;
  let editors := storedEditors config in
  let editors := splice1 editors index in
  updateEditors editors;;
  EditorTreeDataProvider.refresh.

(** [confirm] is the button the user presses in the modal warning, [None]
    when the warning is dismissed. *)
Definition deleteEditor (confirm : option string) (item : EditorTreeItem)
    : Command unit :=
  emit (ShowWarningMessage
          ("Are you sure you want to delete " ^^ dquote
             ^^ name (editor item) ^^ dquote ^^ "?"));;
  if decide (confirm = Some "Delete") then
    removeEditor (index item);;
    emit (ShowInformationMessage ("Editor deleted: " ^^ name (editor item)))
  else mret tt.

End EditorConfigCommands.

(** ** extension.ts *)

Module vscode.
Record Uri : Set := mkUri { fsPath : string }.
Record Position : Set := mkPosition { line : Z; character : Z }.
(** A text editor: [editor.document.uri] and [editor.selection.active]. *)
Record TextEditor : Set := mkTextEditor { document : Uri; active : Position }.
End vscode.

(** What a command handler finds around it when it runs. *)
Record Environment : Type := mkEnvironment {
  os : Os;
  exec : string -> option ExecException;
  activeTextEditor : option vscode.TextEditor;
  jumpHandlerFactory : JumpHandlerFactory.t;
  pick : option string
}.

Module Extension.

Module errorMessages.
Definition noActiveEditor : string := "No active file! Please open a file first.".
Definition noWorkspace : string :=
  "No workspace open! Please open a project folder first.".
End errorMessages.

(** [await handler.jump(...)] inside [try]/[catch]: the handler's effects,
    then the message of a rejection as an error notification. *)
Definition awaitJump (outcome : list Effect * Settled) : Command unit :=
  emitAll outcome.1;;
  match outcome.2 with
  | Resolved => mret tt
  | Rejected m => emit (ShowErrorMessage m)
  end.

Definition executeJump (env : Environment) (context : JumpContext)
    : Command unit :=
  config ← getConfiguration;
  let editors := ConfigManager.getEditors config in
  match EditorSelector.selectEditor (pick env) editors with
  | None => mret tt
  | Some selectedEditor =>
      match JumpHandlerFactory.getHandler (jumpHandlerFactory env)
                                          (type selectedEditor) with
      | Throw m => emit (ShowErrorMessage m)
      | Return handler =>
          awaitJump (jump handler (os env) (exec env) selectedEditor context)
      end
  end.

(** The handler of the command [Switch2IDEA.openFileInIDEA]. *)
Definition openFileInIDEA (env : Environment) (uri : option vscode.Uri)
    : Command unit :=
  match uri with
  | Some uri =>
      let filePath := vscode.fsPath uri in
      let '(line, column) :=
        match activeTextEditor env with
        | Some editor =>
            if String.eqb (vscode.fsPath (vscode.document editor)) filePath
            then (vscode.line (vscode.active editor) + 1,
                  vscode.character (vscode.active editor))
            else (1, 0)
        | None => (1, 0)
        end in
      executeJump env (mkJumpContext (Some filePath) None (Some line) (Some column))
  | None =>
      match activeTextEditor env with
      | None => emit (ShowErrorMessage errorMessages.noActiveEditor)
      | Some editor =>
          let filePath := vscode.fsPath (vscode.document editor) in
          let line := vscode.line (vscode.active editor) + 1 in
          let column := vscode.character (vscode.active editor) in
          executeJump env
            (mkJumpContext (Some filePath) None (Some line) (Some column))
      end
  end.

End Extension.

(** ** The rest of editorTreeView.ts: presets and the guided flows *)

(** [Omit<EditorConfig, 'path'>] *)
Module Preset.
Record t : Set := mk {
  name : string;
  type : EditorType;
  urlScheme : option string
}.
End Preset.

Definition JETBRAINS_PRESETS : list Preset.t :=
  [ Preset.mk "IntelliJ IDEA" jetbrains (Some "idea");
    Preset.mk "WebStorm" jetbrains (Some "webstorm");
    Preset.mk "PyCharm" jetbrains (Some "pycharm");
    Preset.mk "RustRover" jetbrains (Some "rustrover");
    Preset.mk "GoLand" jetbrains (Some "goland");
    Preset.mk "CLion" jetbrains (Some "clion");
    Preset.mk "PhpStorm" jetbrains (Some "phpstorm");
    Preset.mk "Rider" jetbrains (Some "rider");
    Preset.mk "DataGrip" jetbrains (Some "datagrip");
    Preset.mk "Android Studio" jetbrains (Some "studio") ].

(** [vscode.QuickPickItem] *)
Module QuickPickItem.
Record t : Set := mk {
  label : string;
  description : option string;
  detail : option string
}.
End QuickPickItem.

(** The answers of the user to the prompts of [selectEditorPath]: the entry
    chosen in the quick pick, the result of the open dialog and the text of
    the input box; [None] is a dismissed prompt. *)
Record PathAnswers : Set := mkPathAnswers {
  pathChoice : option QuickPickItem.t;
  openDialog : option (list vscode.Uri);
  pathInput : option string
}.

(** The answers to the prompts of [addEditor]. *)
Record AddEditorAnswers : Set := mkAddEditorAnswers {
  typeChoice : option QuickPickItem.t;
  presetChoice : option Preset.t;
  nameInput : option string;
  addPath : PathAnswers;
  urlSchemeInput : option string
}.

(** The answers to the prompts of [editEditor]. *)
Record EditEditorAnswers : Set := mkEditEditorAnswers {
  fieldChoice : option QuickPickItem.t;
  newName : option string;
  editPath : PathAnswers;
  newUrlScheme : option string
}.

(** [editors[index] = editor] on the array [l]: inside the array the element
    is replaced, at its end the element is added.  [None] stands for the
    arrays that are no lists of editors and that the stored lists of this
    model leave out: past the end the assignment leaves holes before the new
    element, and a negative index sets a property that is no element. *)
Definition assignIndex {A : Type} (l : list A) (index : Z) (x : A)
    : option (list A) :=
  let len := Z.of_nat (length l) in
  if index <? 0 then None
  else if index <? len then Some (<[Z.to_nat index := x]> l)
  else if index =? len then Some (l ++ [x])
  else None.

Module SidebarFlows.

Import EditorConfigCommands.

(** The two entries of the first prompt of [addEditor]. *)
Definition typeItems : list QuickPickItem.t :=
  [ QuickPickItem.mk "$(symbol-class) JetBrains IDE"
      (Some "Select from preset list")
      (Some "WebStorm, PyCharm, IDEA, RustRover, etc.");
    QuickPickItem.mk "$(symbol-misc) Custom Editor"
      (Some "Manual configuration") None ].

(** The two entries of the prompt of [selectEditorPath]. *)
Definition pathOptions : list QuickPickItem.t :=
  [ QuickPickItem.mk "$(folder-opened) Browse..." (Some "Open file picker") None;
    QuickPickItem.mk "$(edit) Enter path manually" (Some "Type path directly")
      None ].

(** The three entries of the prompt of [editEditor], for the edited editor. *)
Definition fieldItems (editor : EditorConfig) : list QuickPickItem.t :=
  [ QuickPickItem.mk "Name" (Some (name editor)) None;
    QuickPickItem.mk "Path" (Some (orElse (Some (path editor)) "Auto detect")) None;
    QuickPickItem.mk "URL Scheme" (Some (orElse (urlScheme editor) "None")) None ].

(** [selectEditorPath]: the path is the first URI of the open dialog
    ([uris?.[0]?.fsPath]) or the text of the input box. *)
Definition selectEditorPath (answers : PathAnswers) : option string :=
  match pathChoice answers with
  | None => None
  | Some choice =>
      if includes (QuickPickItem.label choice) "$(folder-opened)" then
        match openDialog answers with
        | Some (uri :: _) => Some (vscode.fsPath uri)
        | _ => None
        end
      else pathInput answers
  end.

(** The end of [addEditor]: the entry is saved and the user is told. *)
Definition added (editorConfig : EditorConfig) : Command unit :=
  saveEditor editorConfig;;
  emit (ShowInformationMessage ("Editor added: " ^^ name editorConfig)).

Definition addEditor (answers : AddEditorAnswers) : Command unit :=
  match typeChoice answers with
  | None => mret tt
  | Some typeChoice =>
      if includes (QuickPickItem.label typeChoice) "JetBrains" then
        match presetChoice answers with
        | None => mret tt
        | Some preset =>
            match asTruthy (selectEditorPath (addPath answers)) with
            | None => mret tt
            | Some path =>
                added (mkEditorConfig (Preset.name preset) (Preset.type preset)
                                      path (Preset.urlScheme preset))
            end
        end
      else
        match asTruthy (nameInput answers) with
        | None => mret tt
        | Some name =>
            match asTruthy (selectEditorPath (addPath answers)) with
            | None => mret tt
            | Some path =>
                let urlScheme := asTruthy (urlSchemeInput answers) in
                added (mkEditorConfig name custom path urlScheme)
            end
        end
  end.

(** [updateEditor]; [None] where [assignIndex] gives none. *)
Definition updateEditor (index : Z) (editor : EditorConfig) (w : World)
    : option (unit * World) :=
  let config := configuration w in
  let editors := storedEditors config in
  match assignIndex editors index editor with
  | Some editors => Some ((updateEditors editors;; EditorTreeDataProvider.refresh) w)
  | None => None
  end.

(** The [switch] of [editEditor]: the new value that was entered, and the
    editor of the item after the assignments to its fields. *)
Definition editField (answers : EditEditorAnswers) (fieldLabel : string)
    (editor : EditorConfig) : option string * EditorConfig :=
  if String.eqb fieldLabel "Name" then
    let newValue := newName answers in
    (newValue,
     match asTruthy newValue with
     | Some v => mkEditorConfig v (type editor) (path editor) (urlScheme editor)
     | None => editor
     end)
  else if String.eqb fieldLabel "Path" then
    let newValue := selectEditorPath (editPath answers) in
    (newValue,
     match asTruthy newValue with
     | Some v => mkEditorConfig (name editor) (type editor) v (urlScheme editor)
     | None => editor
     end)
  else if String.eqb fieldLabel "URL Scheme" then
    let newValue := newUrlScheme answers in
    (newValue,
     mkEditorConfig (name editor) (type editor) (path editor) (asTruthy newValue))
  else (None, editor).

(** [editEditor].  The fields are assigned on [item.editor] itself, so the
    item is part of the result: the item as the flow leaves it, and the next
    world. *)
Definition editEditor (answers : EditEditorAnswers) (item : EditorTreeItem)
    (w : World) : option (EditorTreeItem * World) :=
  match fieldChoice answers with
  | None => Some (item, w)
  | Some fieldChoice =>
      let '(newValue, editor) :=
        editField answers (QuickPickItem.label fieldChoice) (editor item) in
      let item := mkEditorTreeItem editor (index item) in
      match newValue with
      | Some _ =>
          match updateEditor (index item) editor w with
          | Some (_, w) =>
              Some (item,
                    (emit (ShowInformationMessage
                             ("Editor updated: " ^^ name editor)) w).2)
          | None => None
          end
      | None => Some (item, w)
      end
  end.

End SidebarFlows.

(** ** The rest of extension.ts: the other jump commands *)

Module JumpCommands.

Import Extension.

Definition executeJumpToEditor (env : Environment) (editor : EditorConfig)
    (context : JumpContext) : Command unit :=
  match JumpHandlerFactory.getHandler (jumpHandlerFactory env) (type editor) with
  | Throw m => emit (ShowErrorMessage m)
  | Return handler =>
      awaitJump (jump handler (os env) (exec env) editor context)
  end.

(** The handler of the command [switch2idea.jumpToEditor]. *)
Definition jumpToEditor (env : Environment) (item : EditorTreeItem)
    : Command unit :=
  match activeTextEditor env with
  | None => emit (ShowErrorMessage errorMessages.noActiveEditor)
  | Some textEditor =>
      executeJumpToEditor env (editor item)
        (mkJumpContext
           (Some (vscode.fsPath (vscode.document textEditor))) None
           (Some (vscode.line (vscode.active textEditor) + 1))
           (Some (vscode.character (vscode.active textEditor))))
  end.

(** The handler of the command [Switch2IDEA.openProjectInIDEA];
    [workspaceFolders] holds the URI of each open folder. *)
Definition openProjectInIDEA (env : Environment)
    (workspaceFolders : option (list vscode.Uri)) : Command unit :=
  match workspaceFolders with
  | Some (folder :: _) =>
      executeJump env
        (mkJumpContext None (Some (vscode.fsPath folder)) None None)
  | _ => emit (ShowErrorMessage errorMessages.noWorkspace)
  end.

End JumpCommands.

(** ** A reading of the escapes of [encodeURIComponent] *)

(** The value of a hexadecimal digit as [hexDigit] writes it. *)
Definition hexValue (c : ascii) : nat :=
  let n := nat_of_ascii c in
  if (n <? 58)%nat then (n - 48)%nat else (n - 55)%nat.

(** The byte that the two digits of an escape stand for. *)
Definition unescapeByte (hi lo : ascii) : ascii :=
  ascii_of_nat (16 * hexValue hi + hexValue lo).


(** * Properties *)

(** ** Strings *)

Section StringFacts.

Lemma asTruthy_Some (o : option string) (s : string) :
  asTruthy o = Some s <-> o = Some s /\ s <> EmptyString.
Proof.
  destruct o as [[|c r]|]; simpl; split.
  - discriminate.
  - intros [H1 H2]. inversion H1; subst. contradiction.
  - intros H; inversion H; subst. split; [reflexivity | discriminate].
  - intros [H1 _]. exact H1.
  - discriminate.
  - intros [H1 _]. discriminate.
Qed.

Lemma asTruthy_None (o : option string) :
  asTruthy o = None <-> o = None \/ o = Some EmptyString.
Proof.
  destruct o as [[|c r]|]; simpl; split; intros H; auto; try discriminate.
  destruct H; discriminate.
Qed.

Lemma append_cons (c : ascii) (a b : string) :
  String c a ^^ b = String c (a ^^ b).
Proof. reflexivity. Qed.

Lemma append_nil_l (b : string) : EmptyString ^^ b = b.
Proof. reflexivity. Qed.

Lemma append_assoc (a b c : string) : (a ^^ b) ^^ c = a ^^ b ^^ c.
Proof.
  induction a as [|x a IH]; [reflexivity |].
  rewrite !append_cons, IH. reflexivity.
Qed.

Lemma prefix_app (k s : string) :
  String.prefix k s = true <-> exists b, s = k ^^ b.
Proof.
  revert s; induction k as [|c k IH]; intros s.
  - split; [intros _; exists s; reflexivity | intros _; destruct s; reflexivity].
  - destruct s as [|d s]; simpl.
    + split; [discriminate | intros [b Hb]; discriminate].
    + destruct (Ascii.ascii_dec c d) as [->|Hne].
      * rewrite IH. split; intros [b Hb]; exists b.
        -- rewrite Hb. reflexivity.
        -- rewrite append_cons in Hb. congruence.
      * split; [discriminate |].
        intros [b Hb]. rewrite append_cons in Hb. congruence.
Qed.

Lemma includes_nil (k : string) :
  includes EmptyString k = String.prefix k EmptyString || false.
Proof. reflexivity. Qed.

Lemma includes_cons (c : ascii) (s k : string) :
  includes (String c s) k = String.prefix k (String c s) || includes s k.
Proof. reflexivity. Qed.

(** [includes] is containment as a contiguous substring. *)
Lemma includes_spec (s k : string) :
  includes s k = true <-> exists a b, s = a ^^ k ^^ b.
Proof.
  induction s as [|c s IH].
  - rewrite includes_nil, orb_false_r, prefix_app. split.
    + intros [b Hb]. exists EmptyString, b. exact Hb.
    + intros [[|a0 a] [b Hb]]; [exists b; exact Hb | discriminate].
  - rewrite includes_cons, orb_true_iff, prefix_app, IH. split.
    + intros [[b Hb] | (a & b & Hab)].
      * exists EmptyString, b. exact Hb.
      * exists (String c a), b. rewrite append_cons. congruence.
    + intros [[|a0 a] [b Hb]].
      * left. exists b. exact Hb.
      * right. exists a, b. rewrite append_cons in Hb. congruence.
Qed.

Lemma append_nil_r (a : string) : a ^^ EmptyString = a.
Proof.
  induction a as [|x a IH]; [reflexivity |].
  rewrite append_cons, IH. reflexivity.
Qed.

Lemma includesChar_app (a b : string) (c : ascii) :
  includesChar (a ^^ b) c = includesChar a c || includesChar b c.
Proof.
  induction a as [|x a IH]; [reflexivity |].
  rewrite append_cons. simpl. rewrite IH, orb_assoc. reflexivity.
Qed.

(** A pattern is not found inside a text that lacks its first character. *)
Lemma includes_skip (a t k : string) (c : ascii) :
  includesChar a c = false ->
  includes (a ^^ t) (String c k) = includes t (String c k).
Proof.
  induction a as [|x a IH]; intros Hc; [reflexivity |].
  simpl in Hc. apply orb_false_iff in Hc as [Hx Ha].
  rewrite append_cons, includes_cons, (IH Ha).
  replace (String.prefix (String c k) (String x (a ^^ t))) with false;
    [reflexivity |].
  simpl. destruct (Ascii.ascii_dec c x) as [->|Hne]; [| reflexivity].
  rewrite Ascii.eqb_refl in Hx. discriminate.
Qed.

Lemma encodeChar_no_ampersand (c : ascii) :
  includesChar
    (if unreserved c then String c EmptyString else percentEncode c) "&"
  = false.
Proof. destruct c as [[] [] [] [] [] [] [] []]; vm_compute; reflexivity. Qed.

(** [encodeURIComponent] leaves no [&] in its result. *)
Lemma encodeURIComponent_no_ampersand (s : string) :
  includesChar (encodeURIComponent s) "&" = false.
Proof.
  induction s as [|c s IH]; [reflexivity |].
  cbn [encodeURIComponent].
  rewrite includesChar_app, IH, encodeChar_no_ampersand. reflexivity.
Qed.

End StringFacts.

(** Brings a concatenation into its right-nested form. *)
Ltac norm_append := rewrite ?append_assoc, ?append_nil_r, ?append_nil_l.

(** ** C1: the effective editor list *)

(** C1.  [ConfigManager.getEditors] is a total function whose result is never
    the empty list.  A stored [editors] list that is present and non-empty is
    returned as it is; otherwise a legacy [ideaPath] that is present and
    non-empty gives the single entry IntelliJ IDEA / jetbrains / that path /
    idea; otherwise the result is the single entry IntelliJ IDEA / jetbrains /
    empty path / idea. *)
Theorem getEditors_effective_list (config : Configuration) :
  ConfigManager.getEditors config <> [] /\
  (forall eds, editors config = Some eds -> eds <> [] ->
     ConfigManager.getEditors config = eds) /\
  (forall legacyPath,
     editors config = None \/ editors config = Some [] ->
     ideaPath config = Some legacyPath -> legacyPath <> EmptyString ->
     ConfigManager.getEditors config =
       [ mkEditorConfig "IntelliJ IDEA" jetbrains legacyPath (Some "idea") ]) /\
  (editors config = None \/ editors config = Some [] ->
   ideaPath config = None \/ ideaPath config = Some EmptyString ->
   ConfigManager.getEditors config =
     [ mkEditorConfig "IntelliJ IDEA" jetbrains EmptyString (Some "idea") ]).
Proof.
  unfold ConfigManager.getEditors, ConfigManager.getDefaultEditors.
  repeat split.
  - destruct (editors config) as [[|e es]|]; simpl;
      destruct (asTruthy (ideaPath config)); discriminate.
  - intros eds -> Hne. destruct eds; [contradiction | reflexivity].
  - intros legacyPath Hed Hp Hne.
    assert (ConfigManager.nonEmptyList (editors config) = false) as ->
      by (destruct Hed as [-> | ->]; reflexivity).
    assert (asTruthy (ideaPath config) = Some legacyPath) as ->
      by (apply asTruthy_Some; auto).
    reflexivity.
  - intros Hed Hp.
    assert (ConfigManager.nonEmptyList (editors config) = false) as ->
      by (destruct Hed as [-> | ->]; reflexivity).
    assert (asTruthy (ideaPath config) = None) as ->
      by (apply asTruthy_None; auto).
    reflexivity.
Qed.

(** ** C2-C4: command construction *)

Section CommandConstruction.

Import JetBrainsHandler.

Lemma file_target (context : JumpContext) (p : string) :
  filePath context = Some p -> p <> EmptyString ->
  asTruthy (filePath context) = Some p.
Proof. intros H1 H2. apply asTruthy_Some. auto. Qed.

Lemma buildCommand_darwin (os : Os) (config : EditorConfig)
    (context : JumpContext) :
  platform os = "darwin" ->
  buildCommand os config context =
    buildMacCommand config context
      (orElse (Some (path config))
              (getDefaultPath os "darwin" (Some (name config)))).
Proof. intros H. unfold buildCommand. rewrite H. reflexivity. Qed.

Lemma buildCommand_other (os : Os) (config : EditorConfig)
    (context : JumpContext) :
  platform os <> "darwin" ->
  buildCommand os config context =
    buildCliCommand context
      (orElse (Some (path config))
              (getDefaultPath os (platform os) (Some (name config)))).
Proof.
  intros H. unfold buildCommand.
  destruct (String.eqb_spec (platform os) "darwin"); [contradiction | reflexivity].
Qed.

(** C2.  For a file target (a [filePath] that passes the presence test of the
    code: defined and not empty), [buildMacCommand] returns
    [open -a "<app path>" "<url>"] with
    [<url> = <scheme>://open?file=<encoded filePath>], followed by
    [&line=<line>] when the line passes its presence test and by
    [&column=<column>] when a column is defined; the scheme is the
    configured [urlScheme], [idea] when there is none.  On darwin
    [buildCommand] is this command for the configured (or default)
    application path.  With line 42, no column and scheme [pycharm] the URL
    is [pycharm://open?file=<encoded path>&line=42], in which [&column=]
    does not occur. *)
Theorem buildMacCommand_file_url (config : EditorConfig)
    (context : JumpContext) (appPath p : string) :
  filePath context = Some p -> p <> EmptyString ->
  let scheme := orElse (urlScheme config) "idea" in
  let linePart :=
    match line context with
    | Some l => if l =? 0 then EmptyString else "&line=" ^^ numToString l
    | None => EmptyString
    end in
  let columnPart :=
    match column context with
    | Some c => "&column=" ^^ numToString c
    | None => EmptyString
    end in
  let url :=
    scheme ^^ "://open?file=" ^^ encodeURIComponent p ^^ linePart ^^ columnPart in
  buildMacCommand config context appPath =
    Return ("open -a " ^^ dquote ^^ appPath ^^ dquote ^^ " "
              ^^ dquote ^^ url ^^ dquote) /\
  (forall os, platform os = "darwin" ->
     buildCommand os config context =
       Return ("open -a " ^^ dquote
                 ^^ orElse (Some (path config))
                           (getDefaultPath os "darwin" (Some (name config)))
                 ^^ dquote ^^ " " ^^ dquote ^^ url ^^ dquote)) /\
  (line context = Some 42 -> column context = None ->
   urlScheme config = Some "pycharm" ->
   url = "pycharm://open?file=" ^^ encodeURIComponent p ^^ "&line=42" /\
   includes url "&column=" = false).
Proof.
  intros Hp Hne scheme linePart columnPart url.
  assert (forall app, buildMacCommand config context app =
            Return ("open -a " ^^ dquote ^^ app ^^ dquote ^^ " "
                      ^^ dquote ^^ url ^^ dquote)) as Hmac.
  { intros app. unfold buildMacCommand. rewrite (file_target _ _ Hp Hne).
    subst url linePart columnPart scheme.
    destruct (line context) as [l|]; cbn [asTruthyNum];
      [destruct (Z.eqb_spec l 0) |];
      destruct (column context) as [c|];
      norm_append; reflexivity. }
  split; [apply Hmac |]. split.
  - intros os Hos. rewrite (buildCommand_darwin _ _ _ Hos). apply Hmac.
  - intros Hl Hc Hs. subst url linePart columnPart scheme.
    rewrite Hl, Hc, Hs. split; [reflexivity |].
    change (orElse (Some "pycharm") "idea") with "pycharm".
    change (if 42 =? 0 then EmptyString else "&line=" ^^ numToString 42)
      with "&line=42".
    rewrite append_nil_r.
    rewrite <- (append_assoc "pycharm"), <- append_assoc.
    rewrite includes_skip; [reflexivity |].
    rewrite includesChar_app, encodeURIComponent_no_ampersand. reflexivity.
Qed.

(** The command of C2 at a concrete file target: PyCharm, line 42, no
    column. *)
Lemma buildMacCommand_file_url_witness :
  buildMacCommand
    (mkEditorConfig "PyCharm" jetbrains EmptyString (Some "pycharm"))
    (mkJumpContext (Some "/src/a b.py") None (Some 42) None) "PyCharm"
  = Return ("open -a " ^^ dquote ^^ "PyCharm" ^^ dquote ^^ " " ^^ dquote
              ^^ "pycharm://open?file=%2Fsrc%2Fa%20b.py&line=42" ^^ dquote).
Proof.
  exact (proj1 (buildMacCommand_file_url
                  (mkEditorConfig "PyCharm" jetbrains EmptyString (Some "pycharm"))
                  (mkJumpContext (Some "/src/a b.py") None (Some 42) None)
                  "PyCharm" "/src/a b.py" eq_refl
                  ltac:(discriminate))).
Defined.

(** C3.  For a file target, on both platform branches, the line part
    ([&line=<line>] in the URL, [ --line <line>] in the command line) is there
    exactly when the line is truthy (defined and not 0), and the column part
    ([&column=<column>], [ --column <column>]) exactly when the column is
    defined, 0 included.  Off darwin, column 5 and no line give
    ["<exe>" --column 5 "<file>"]. *)
Theorem line_column_presence (config : EditorConfig) (context : JumpContext)
    (appPath execPath p : string) :
  filePath context = Some p -> p <> EmptyString ->
  exists urlLine urlColumn cliLine cliColumn : string,
    buildMacCommand config context appPath =
      Return ("open -a " ^^ dquote ^^ appPath ^^ dquote ^^ " " ^^ dquote
                ^^ (orElse (urlScheme config) "idea" ^^ "://open?file="
                      ^^ encodeURIComponent p ^^ urlLine ^^ urlColumn)
                ^^ dquote) /\
    buildCliCommand context execPath =
      Return (dquote ^^ execPath ^^ dquote ^^ cliLine ^^ cliColumn
                ^^ " " ^^ dquote ^^ p ^^ dquote) /\
    (forall l, line context = Some l -> l <> 0 ->
       urlLine = "&line=" ^^ numToString l /\
       cliLine = " --line " ^^ numToString l) /\
    (line context = None \/ line context = Some 0 ->
       urlLine = EmptyString /\ cliLine = EmptyString) /\
    (forall c, column context = Some c ->
       urlColumn = "&column=" ^^ numToString c /\
       cliColumn = " --column " ^^ numToString c) /\
    (column context = None ->
       urlColumn = EmptyString /\ cliColumn = EmptyString) /\
    (urlLine <> EmptyString <-> exists l, line context = Some l /\ l <> 0) /\
    (cliLine <> EmptyString <-> exists l, line context = Some l /\ l <> 0) /\
    (urlColumn <> EmptyString <-> column context <> None) /\
    (cliColumn <> EmptyString <-> column context <> None) /\
    (forall os, platform os <> "darwin" ->
       line context = None -> column context = Some 5 ->
       buildCommand os config context =
         Return (dquote
                   ^^ orElse (Some (path config))
                             (getDefaultPath os (platform os) (Some (name config)))
                   ^^ dquote ^^ " --column 5 " ^^ dquote ^^ p ^^ dquote)).
Proof.
  intros Hp Hne.
  exists (match asTruthyNum (line context) with
          | Some l => "&line=" ^^ numToString l | None => EmptyString end),
         (match column context with
          | Some c => "&column=" ^^ numToString c | None => EmptyString end),
         (match asTruthyNum (line context) with
          | Some l => " --line " ^^ numToString l | None => EmptyString end),
         (match column context with
          | Some c => " --column " ^^ numToString c | None => EmptyString end).
  split; [| split].
  - unfold buildMacCommand. rewrite (file_target _ _ Hp Hne).
    destruct (asTruthyNum (line context)); destruct (column context);
      norm_append; reflexivity.
  - unfold buildCliCommand. rewrite (file_target _ _ Hp Hne).
    destruct (asTruthyNum (line context)); destruct (column context);
      norm_append; reflexivity.
  - repeat split.
    + rewrite H. cbn [asTruthyNum].
      destruct (Z.eqb_spec l 0); [contradiction | reflexivity].
    + rewrite H. cbn [asTruthyNum].
      destruct (Z.eqb_spec l 0); [contradiction | reflexivity].
    + destruct H as [-> | ->]; reflexivity.
    + destruct H as [-> | ->]; reflexivity.
    + rewrite H. reflexivity.
    + rewrite H. reflexivity.
    + rewrite H. reflexivity.
    + rewrite H. reflexivity.
    + destruct (line context) as [l|]; cbn [asTruthyNum];
        [destruct (Z.eqb_spec l 0) |]; intros H;
        [contradiction | exists l; auto | contradiction].
    + intros (l & -> & Hl). cbn [asTruthyNum].
      destruct (Z.eqb_spec l 0); [contradiction | discriminate].
    + destruct (line context) as [l|]; cbn [asTruthyNum];
        [destruct (Z.eqb_spec l 0) |]; intros H;
        [contradiction | exists l; auto | contradiction].
    + intros (l & -> & Hl). cbn [asTruthyNum].
      destruct (Z.eqb_spec l 0); [contradiction | discriminate].
    + destruct (column context); [discriminate | contradiction].
    + destruct (column context); [discriminate | contradiction].
    + destruct (column context); [discriminate | contradiction].
    + destruct (column context); [discriminate | contradiction].
    + intros os Hos Hl Hc. rewrite (buildCommand_other _ _ _ Hos).
      unfold buildCliCommand. rewrite (file_target _ _ Hp Hne), Hl, Hc.
      cbn [asTruthyNum]. norm_append. reflexivity.
Qed.

(** C4.  When neither [filePath] nor [projectPath] is present (each is
    undefined, or the empty string, which the code treats alike), both
    builders throw the NoFileOrProject error, on every platform, and no
    command string is returned. *)
Theorem no_file_or_project (os : Os) (config : EditorConfig)
    (context : JumpContext) (appPath execPath : string) :
  filePath context = None \/ filePath context = Some EmptyString ->
  projectPath context = None \/ projectPath context = Some EmptyString ->
  buildMacCommand config context appPath =
    Throw "No file or project path provided!" /\
  buildCliCommand context execPath =
    Throw "No file or project path provided!" /\
  buildCommand os config context =
    Throw "No file or project path provided!" /\
  (forall cmd, buildMacCommand config context appPath <> Return cmd) /\
  (forall cmd, buildCliCommand context execPath <> Return cmd) /\
  (forall cmd, buildCommand os config context <> Return cmd).
Proof.
  intros Hf Hq.
  apply asTruthy_None in Hf. apply asTruthy_None in Hq.
  assert (forall app, buildMacCommand config context app =
            Throw "No file or project path provided!") as Hmac
    by (intros app; unfold buildMacCommand; rewrite Hf, Hq; reflexivity).
  assert (forall exe, buildCliCommand context exe =
            Throw "No file or project path provided!") as Hcli
    by (intros exe; unfold buildCliCommand; rewrite Hf, Hq; reflexivity).
  assert (buildCommand os config context =
            Throw "No file or project path provided!") as Hcmd.
  { unfold buildCommand. destruct (String.eqb (platform os) "darwin"); auto. }
  repeat split; auto; intros cmd; rewrite ?Hmac, ?Hcli, ?Hcmd; discriminate.
Qed.

Lemma line_column_presence_witness :
  exists urlLine urlColumn cliLine cliColumn : string,
    buildMacCommand
      (mkEditorConfig "WebStorm" jetbrains EmptyString None)
      (mkJumpContext (Some "/w/x.ts") None (Some 0) (Some 0)) "WebStorm"
    = Return ("open -a " ^^ dquote ^^ "WebStorm" ^^ dquote ^^ " " ^^ dquote
                ^^ ("idea" ^^ "://open?file=" ^^ "%2Fw%2Fx.ts"
                      ^^ urlLine ^^ urlColumn) ^^ dquote) /\
    buildCliCommand (mkJumpContext (Some "/w/x.ts") None (Some 0) (Some 0))
                    "webstorm"
    = Return (dquote ^^ "webstorm" ^^ dquote ^^ cliLine ^^ cliColumn
                ^^ " " ^^ dquote ^^ "/w/x.ts" ^^ dquote) /\
    urlLine = EmptyString /\ cliLine = EmptyString /\
    urlColumn = "&column=0" /\ cliColumn = " --column 0".
Proof.
  destruct (line_column_presence
              (mkEditorConfig "WebStorm" jetbrains EmptyString None)
              (mkJumpContext (Some "/w/x.ts") None (Some 0) (Some 0))
              "WebStorm" "webstorm" "/w/x.ts" eq_refl ltac:(discriminate))
    as (uL & uC & cL & cC & Hm & Hc & _ & H0 & Hcol & _).
  exists uL, uC, cL, cC.
  destruct (H0 (or_intror eq_refl)) as [-> ->].
  destruct (Hcol 0 eq_refl) as [-> ->].
  repeat split; assumption.
Defined.

Lemma no_file_or_project_witness :
  buildCommand (mkOs "linux" None "/home/u")
    (mkEditorConfig "IntelliJ IDEA" jetbrains EmptyString (Some "idea"))
    (mkJumpContext None (Some EmptyString) (Some 3) None)
  = Throw "No file or project path provided!".
Proof.
  exact (proj1 (proj2 (proj2 (no_file_or_project
    (mkOs "linux" None "/home/u")
    (mkEditorConfig "IntelliJ IDEA" jetbrains EmptyString (Some "idea"))
    (mkJumpContext None (Some EmptyString) (Some 3) None)
    "IntelliJ IDEA" "idea" (or_introl eq_refl) (or_intror eq_refl))))).
Defined.

End CommandConstruction.

(** ** C5: default-path resolution *)

Section DefaultPath.

Import JetBrainsHandler.

(** The loop stops at the first key the name includes. *)
Lemma findApp_first_match (name : string) (before after : list (string * AppInfo))
    (key : string) (value appInfo : AppInfo) :
  Forall (fun e => includes name e.1 = false) before ->
  includes name key = true ->
  findApp name (before ++ (key, value) :: after) appInfo = value.
Proof.
  induction before as [|[k v] before IH]; intros Hb Hk; simpl.
  - rewrite Hk. reflexivity.
  - inversion Hb as [|? ? Hk' Hb']; subst. simpl in Hk'.
    rewrite Hk'. apply IH; assumption.
Qed.

(** With no matching key the initial value is kept. *)
Lemma findApp_no_match (name : string) (entries : list (string * AppInfo))
    (appInfo : AppInfo) :
  Forall (fun e => includes name e.1 = false) entries ->
  findApp name entries appInfo = appInfo.
Proof.
  induction entries as [|[k v] entries IH]; intros He; simpl; [reflexivity |].
  inversion He as [|? ? Hk He']; subst. simpl in Hk.
  rewrite Hk. apply IH; assumption.
Qed.

Lemma findApp_in (name : string) (entries : list (string * AppInfo))
    (appInfo : AppInfo) :
  findApp name entries appInfo = appInfo \/
  In (findApp name entries appInfo) (map snd entries).
Proof.
  induction entries as [|[k v] entries IH]; simpl; [left; reflexivity |].
  destruct (includes name k); [right; left; reflexivity |].
  destruct IH as [IH | IH]; [left | right; right]; assumption.
Qed.

(** Every executable name of the table is its slug followed by [64.exe], and
    every script name its slug followed by [.sh]; [replace] gives the slug. *)
Lemma table_slugs (name : string) :
  slugs_ok (findApp name appNameMap ideaInfo) = true.
Proof.
  assert (forallb slugs_ok (ideaInfo :: map snd appNameMap) = true) as Hall
    by (vm_compute; reflexivity).
  rewrite forallb_forall in Hall. apply Hall.
  destruct (findApp_in name appNameMap ideaInfo) as [-> | Hin];
    [left; reflexivity | right; exact Hin].
Qed.

(** The entry [getDefaultPath] works with is the one found for the
    lower-cased name. *)
Lemma selected_entry (n : string) :
  findApp (orElse (toLowerCase <$> Some n) "intellij idea") appNameMap ideaInfo
  = findApp (toLowerCase n) appNameMap ideaInfo.
Proof.
  destruct n as [|c n]; [vm_compute; reflexivity | reflexivity].
Qed.

(** C5.  [getDefaultPath] selects a table entry by the lower-cased editor
    name: the entry of the first key, in table order, that the lower-cased
    name contains, and the IntelliJ IDEA entry when it contains none (as for
    RustRover).  The path is the entry's mac application name on darwin,
    [<LOCALAPPDATA>\JetBrains\Toolbox\scripts\<slug>] on win32 with the
    entry's executable name being [<slug>64.exe], and
    [<home>/.local/share/JetBrains/Toolbox/scripts/<slug>] on linux with the
    entry's script name being [<slug>.sh]. *)
Theorem getDefaultPath_resolution (os : Os) (n : string) :
  exists info : AppInfo,
    (forall before key value after,
       appNameMap = before ++ (key, value) :: after ->
       includes (toLowerCase n) key = true ->
       Forall (fun e => includes (toLowerCase n) e.1 = false) before ->
       info = value) /\
    (Forall (fun e => includes (toLowerCase n) e.1 = false) appNameMap ->
     info = mkAppInfo "IntelliJ IDEA" "idea64.exe" "idea.sh") /\
    getDefaultPath os "darwin" (Some n) = mac info /\
    (exists slug,
       win info = slug ^^ "64.exe" /\
       getDefaultPath os "win32" (Some n) =
         template (LOCALAPPDATA os) ^^ "\JetBrains\Toolbox\scripts\" ^^ slug) /\
    (exists slug,
       linux info = slug ^^ ".sh" /\
       getDefaultPath os "linux" (Some n) =
         homedir os ^^ "/.local/share/JetBrains/Toolbox/scripts/" ^^ slug) /\
    (Forall (fun e => includes (toLowerCase "RustRover") e.1 = false) appNameMap /\
     getDefaultPath os "darwin" (Some "RustRover") = "IntelliJ IDEA" /\
     getDefaultPath os "win32" (Some "RustRover") =
       template (LOCALAPPDATA os) ^^ "\JetBrains\Toolbox\scripts\idea" /\
     getDefaultPath os "linux" (Some "RustRover") =
       homedir os ^^ "/.local/share/JetBrains/Toolbox/scripts/idea").
Proof.
  exists (findApp (toLowerCase n) appNameMap ideaInfo).
  pose proof (table_slugs (toLowerCase n)) as Hs.
  unfold slugs_ok in Hs. apply andb_true_iff in Hs as [Hw Hl].
  apply String.eqb_eq in Hw, Hl.
  repeat split.
  - intros before key value after -> Hk Hb.
    apply findApp_first_match; assumption.
  - intros Hno. apply findApp_no_match. exact Hno.
  - unfold getDefaultPath. rewrite selected_entry. reflexivity.
  - exists (replace (win (findApp (toLowerCase n) appNameMap ideaInfo))
                    "64.exe" EmptyString).
    split; [exact Hw |].
    unfold getDefaultPath. rewrite selected_entry. reflexivity.
  - exists (replace (linux (findApp (toLowerCase n) appNameMap ideaInfo))
                    ".sh" EmptyString).
    split; [exact Hl |].
    unfold getDefaultPath. rewrite selected_entry. reflexivity.
  - unfold appNameMap. repeat (constructor; [reflexivity |]). constructor.
Qed.

End DefaultPath.

(** ** C6: classification of a failed launch *)

Section LaunchFailure.

Import JetBrainsHandler.

Lemma isNotFound_spec (error : ExecException) :
  isNotFound error = true <->
  includes (message error) "ENOENT" = true \/
  includes (message error) "not found" = true \/
  includes (message error) "找不到" = true \/
  code error = Some 127.
Proof.
  unfold isNotFound. rewrite !orb_true_iff.
  destruct (code error) as [c|].
  - rewrite Z.eqb_eq. split.
    + intros [[[H | H] | H] | H]; auto. subst; auto.
    + intros [H | [H | [H | H]]]; auto. inversion H; auto.
  - split.
    + intros [[[H | H] | H] | H]; auto. discriminate.
    + intros [H | [H | [H | H]]]; auto. discriminate.
Qed.

(** The two message templates never give the same text. *)
Lemma templates_differ (n p n' e : string) :
  errorMessages.editorNotFound n p <> errorMessages.executionFailed n' e.
Proof.
  unfold errorMessages.editorNotFound, errorMessages.executionFailed.
  rewrite !append_cons. discriminate.
Qed.

(** C6.  A failed child process is reported with the EditorNotFound message
    exactly when the error message contains [ENOENT], [not found] or the
    localized phrase, or the exit code is 127; the message then names the
    editor and the attempted path, which is the configured path, or the
    default path when the configured one is empty.  Every other failure is
    reported with the ExecutionFailed message, naming the editor and the raw
    error text.  In both cases the message is shown as an error notification
    and the promise, and with it [jump], is rejected with it. *)
Theorem executeCommand_failure (os : Os) (config : EditorConfig)
    (error : ExecException) :
  let notFound :=
    includes (message error) "ENOENT" = true \/
    includes (message error) "not found" = true \/
    includes (message error) "找不到" = true \/
    code error = Some 127 in
  let attempted :=
    match path config with
    | EmptyString => getDefaultPath os (platform os) (Some (name config))
    | configured => configured
    end in
  let editorNotFound :=
    "Cannot launch " ^^ name config ^^ ": " ^^ dquote ^^ attempted ^^ dquote
      ^^ " not found. Please check the editor path config." in
  let executionFailed :=
    "Failed to launch " ^^ name config ^^ ": " ^^ message error in
  exists msg : string,
    executeCommand os (Some error) config =
      ([ShowErrorMessage msg], Rejected msg) /\
    (forall exec context command,
       buildCommand os config context = Return command ->
       exec command = Some error ->
       jump os exec config context = ([ShowErrorMessage msg], Rejected msg)) /\
    (msg = editorNotFound <-> notFound) /\
    (msg = executionFailed <-> ~ notFound).
Proof.
  intros notFound attempted editorNotFound executionFailed.
  assert (orElse (Some (path config))
                 (getDefaultPath os (platform os) (Some (name config)))
          = attempted) as Hpath
    by (subst attempted; destruct (path config); reflexivity).
  assert (editorNotFound <> executionFailed) as Hdiff
    by apply templates_differ.
  destruct (isNotFound error) eqn:Hnf.
  - exists editorNotFound.
    assert (notFound) as Hyes by (apply isNotFound_spec; exact Hnf).
    assert (executeCommand os (Some error) config =
              ([ShowErrorMessage editorNotFound], Rejected editorNotFound)) as Hex
      by (unfold executeCommand; rewrite Hnf, Hpath; reflexivity).
    split; [exact Hex |]. split; [| split].
    + intros exec context command Hb He. unfold jump. rewrite Hb, He. exact Hex.
    + split; auto.
    + split; [intros H; contradiction | intros H; contradiction].
  - exists executionFailed.
    assert (~ notFound) as Hno.
    { intros H. apply isNotFound_spec in H. congruence. }
    assert (executeCommand os (Some error) config =
              ([ShowErrorMessage executionFailed], Rejected executionFailed)) as Hex
      by (unfold executeCommand; rewrite Hnf; reflexivity).
    split; [exact Hex |]. split; [| split].
    + intros exec context command Hb He. unfold jump. rewrite Hb, He. exact Hex.
    + split; [intros H; symmetry in H; contradiction | intros H; contradiction].
    + split; auto.
Qed.

End LaunchFailure.

(** ** C9: the handler registry *)

(** C9.  Whatever is registered, asking for a type without a handler throws
    the UnsupportedEditorType message, which names the type and lists
    [jetbrains] as the supported types.  In the registry as constructed the
    types without a handler are exactly [custom]; for [jetbrains] the
    registered JetBrains handler is returned. *)
Theorem getHandler_registry :
  (forall (factory : JumpHandlerFactory.t) (type : EditorType),
     JumpHandlerFactory.handlers factory !! type = None ->
     JumpHandlerFactory.getHandler factory type =
       Throw ("Unsupported editor type: " ^^ typeName type
                ^^ ". Currently supported types: jetbrains")) /\
  (forall type : EditorType,
     JumpHandlerFactory.handlers JumpHandlerFactory.new !! type = None <->
     type = custom) /\
  JumpHandlerFactory.getHandler JumpHandlerFactory.new custom =
    Throw "Unsupported editor type: custom. Currently supported types: jetbrains" /\
  JumpHandlerFactory.getHandler JumpHandlerFactory.new jetbrains =
    Return jetBrainsHandler.
Proof.
  split; [| split; [| split]].
  - intros factory type H. unfold JumpHandlerFactory.getHandler.
    rewrite H. reflexivity.
  - intros type. unfold JumpHandlerFactory.new. cbn [JumpHandlerFactory.handlers].
    destruct type.
    + rewrite lookup_insert_eq. split; discriminate.
    + rewrite lookup_insert_ne by discriminate. rewrite lookup_empty.
      split; reflexivity.
  - unfold JumpHandlerFactory.getHandler, JumpHandlerFactory.new.
    cbn [JumpHandlerFactory.handlers].
    rewrite lookup_insert_ne by discriminate. rewrite lookup_empty. reflexivity.
  - unfold JumpHandlerFactory.getHandler, JumpHandlerFactory.new.
    cbn [JumpHandlerFactory.handlers].
    rewrite lookup_insert_eq. reflexivity.
Qed.

(** ** C7 and C10: saving and removing stored editors *)

Section StoredEditors.

Import EditorConfigCommands.

Lemma saveEditor_run (editor : EditorConfig) (w : World) :
  saveEditor editor w =
    (tt, mkWorld (mkConfiguration
                    (Some (storedEditors (configuration w) ++ [editor]))
                    (ideaPath (configuration w))
                    (showTreeView (configuration w)))
                 (effects w ++ [Refresh])).
Proof. reflexivity. Qed.

Lemma removeEditor_run (index : Z) (w : World) :
  removeEditor index w =
    (tt, mkWorld (mkConfiguration
                    (Some (splice1 (storedEditors (configuration w)) index))
                    (ideaPath (configuration w))
                    (showTreeView (configuration w)))
                 (effects w ++ [Refresh])).
Proof. reflexivity. Qed.

Lemma deleteEditor_confirmed (item : EditorTreeItem) (w : World) :
  deleteEditor (Some "Delete") item w =
    (tt, mkWorld (mkConfiguration
                    (Some (splice1 (storedEditors (configuration w)) (index item)))
                    (ideaPath (configuration w))
                    (showTreeView (configuration w)))
                 (((effects w
                    ++ [ShowWarningMessage
                          ("Are you sure you want to delete " ^^ dquote
                             ^^ name (editor item) ^^ dquote ^^ "?")])
                    ++ [Refresh])
                    ++ [ShowInformationMessage
                          ("Editor deleted: " ^^ name (editor item))])).
Proof. reflexivity. Qed.

(** Inside the array, [splice(index, 1)] deletes the element at [index]. *)
Lemma splice1_in_range {A : Type} (l : list A) (i : nat) :
  (i < length l)%nat -> splice1 l (Z.of_nat i) = delete i l.
Proof.
  intros Hi. unfold splice1. rewrite delete_take_drop.
  destruct (Z.ltb_spec (Z.of_nat i) 0) as [Hneg | _]; [lia |].
  replace (Z.min (Z.of_nat i) (Z.of_nat (length l))) with (Z.of_nat i) by lia.
  replace (Z.min (Z.max 1 0) (Z.of_nat (length l) - Z.of_nat i)) with 1 by lia.
  rewrite Nat2Z.id. replace (Z.to_nat (Z.of_nat i + 1)) with (S i) by lia.
  reflexivity.
Qed.

(** At or past the end of the array, [splice(index, 1)] deletes nothing. *)
Lemma splice1_out_of_range {A : Type} (l : list A) (start : Z) :
  Z.of_nat (length l) <= start -> splice1 l start = l.
Proof.
  intros Hs. unfold splice1.
  destruct (Z.ltb_spec start 0) as [Hneg | _]; [lia |].
  replace (Z.min start (Z.of_nat (length l))) with (Z.of_nat (length l)) by lia.
  replace (Z.min (Z.max 1 0) (Z.of_nat (length l) - Z.of_nat (length l)))
    with 0 by lia.
  rewrite Z.add_0_r, Nat2Z.id.
  rewrite take_ge, drop_ge by lia. apply app_nil_r.
Qed.

(** C7.  [saveEditor] writes back the stored list with exactly one entry
    added, at the end: the earlier entries keep their positions.
    [removeEditor] at a position of the stored list writes back the list
    without that entry: the entries before it keep their positions and every
    later entry moves down by one. *)
Theorem save_appends_remove_shifts (w : World) :
  let stored := storedEditors (configuration w) in
  (forall editor : EditorConfig,
     let stored' := storedEditors (configuration (saveEditor editor w).2) in
     stored' = stored ++ [editor] /\
     length stored' = S (length stored) /\
     (forall i e, stored !! i = Some e -> stored' !! i = Some e) /\
     stored' !! length stored = Some editor) /\
  (forall index : nat,
     (index < length stored)%nat ->
     let stored' :=
       storedEditors (configuration (removeEditor (Z.of_nat index) w).2) in
     stored' = take index stored ++ drop (S index) stored /\
     S (length stored') = length stored /\
     (forall j, (j < index)%nat -> stored' !! j = stored !! j) /\
     (forall j, (index <= j)%nat -> stored' !! j = stored !! S j)).
Proof.
  intros stored. split.
  - intros editor stored'.
    assert (stored' = stored ++ [editor]) as -> by reflexivity.
    split; [reflexivity |]. split; [| split].
    + rewrite length_app. simpl. lia.
    + intros i e Hi. rewrite lookup_app_l; [exact Hi |].
      apply lookup_lt_Some in Hi. exact Hi.
    + rewrite lookup_app_r by lia. rewrite Nat.sub_diag. reflexivity.
  - intros index Hi stored'.
    assert (stored' = splice1 stored (Z.of_nat index)) as -> by reflexivity.
    rewrite (splice1_in_range stored index Hi).
    split; [apply delete_take_drop |]. split; [| split].
    + rewrite length_delete; [lia |]. apply lookup_lt_is_Some. exact Hi.
    + intros j Hj. apply list_lookup_delete_lt. exact Hj.
    + intros j Hj. apply list_lookup_delete_ge. exact Hj.
Qed.

(** A stored list shorter than the rendered one is empty. *)
Lemma shorter_stored_is_empty (config : Configuration) :
  (length (storedEditors config) < length (ConfigManager.getEditors config))%nat ->
  storedEditors config = [].
Proof.
  unfold storedEditors, ConfigManager.getEditors.
  destruct (editors config) as [[|e es]|]; simpl; intros H;
    [reflexivity | lia | reflexivity].
Qed.

(** The effective list does not tell an absent [editors] key from an empty
    list. *)
Lemma getEditors_stored_empty (config : Configuration) :
  storedEditors config = [] ->
  ConfigManager.getEditors
    (mkConfiguration (Some []) (ideaPath config) (showTreeView config))
  = ConfigManager.getEditors config.
Proof.
  unfold storedEditors, ConfigManager.getEditors.
  destruct (editors config) as [[|e es]|]; simpl; intros H;
    [reflexivity | discriminate | reflexivity].
Qed.

(** C10.  For a row of the rendered list while the stored list is shorter
    than the rendered one, a confirmed [deleteEditor] splices the stored list
    at an index outside it and writes the same list back: the stored list,
    the effective list and the rendered rows are as before, so the row is
    still there after the refresh, and the flow ends with the notification
    that the editor was deleted. *)
Theorem delete_synthesized_row (w : World) (item : EditorTreeItem) :
  EditorRow item ∈ EditorTreeDataProvider.getChildren (configuration w) ->
  (length (storedEditors (configuration w))
     < length (ConfigManager.getEditors (configuration w)))%nat ->
  let w' := (deleteEditor (Some "Delete") item w).2 in
  Z.of_nat (length (storedEditors (configuration w))) <= index item /\
  splice1 (storedEditors (configuration w)) (index item)
    = storedEditors (configuration w) /\
  storedEditors (configuration w') = storedEditors (configuration w) /\
  ConfigManager.getEditors (configuration w')
    = ConfigManager.getEditors (configuration w) /\
  EditorRow item ∈ EditorTreeDataProvider.getChildren (configuration w') /\
  effects w' =
    effects w ++
      [ ShowWarningMessage
          ("Are you sure you want to delete " ^^ dquote
             ^^ name (editor item) ^^ dquote ^^ "?");
        Refresh;
        ShowInformationMessage ("Editor deleted: " ^^ name (editor item)) ].
Proof.
  intros Hrow Hshort w'.
  pose proof (shorter_stored_is_empty _ Hshort) as Hempty.
  assert (0 <= index item) as Hidx.
  { unfold EditorTreeDataProvider.getChildren in Hrow.
    apply elem_of_app in Hrow as [Hrow | Hrow].
    - apply list_elem_of_lookup in Hrow as [i Hi].
      rewrite list_lookup_imap in Hi.
      destruct (ConfigManager.getEditors (configuration w) !! i) as [e|];
        simpl in Hi; [| discriminate].
      inversion Hi; subst. simpl. lia.
    - apply list_elem_of_singleton in Hrow. discriminate. }
  assert (splice1 (storedEditors (configuration w)) (index item)
          = storedEditors (configuration w)) as Hsplice
    by (apply splice1_out_of_range; rewrite Hempty; simpl; lia).
  assert (configuration w' =
            mkConfiguration (Some (storedEditors (configuration w)))
                            (ideaPath (configuration w))
                            (showTreeView (configuration w))) as Hcfg
    by (subst w'; rewrite deleteEditor_confirmed, Hsplice; reflexivity).
  assert (ConfigManager.getEditors (configuration w')
          = ConfigManager.getEditors (configuration w)) as Heff
    by (rewrite Hcfg, Hempty; apply getEditors_stored_empty; exact Hempty).
  split; [rewrite Hempty; simpl; lia |].
  split; [exact Hsplice |].
  split; [rewrite Hcfg; reflexivity |].
  split; [exact Heff |].
  split.
  - unfold EditorTreeDataProvider.getChildren. rewrite Heff. exact Hrow.
  - subst w'. rewrite deleteEditor_confirmed. cbn [snd effects].
    rewrite <- !app_assoc. reflexivity.
Qed.

(** The built-in default row of an empty store, deleted. *)
Lemma delete_synthesized_row_witness :
  let w := mkWorld (mkConfiguration None None None) [] in
  let item :=
    mkEditorTreeItem
      (mkEditorConfig "IntelliJ IDEA" jetbrains EmptyString (Some "idea")) 0 in
  storedEditors (configuration (deleteEditor (Some "Delete") item w).2) = [] /\
  ConfigManager.getEditors (configuration (deleteEditor (Some "Delete") item w).2)
    = [ mkEditorConfig "IntelliJ IDEA" jetbrains EmptyString (Some "idea") ].
Proof.
  intros w item.
  assert (EditorRow item
            ∈ EditorTreeDataProvider.getChildren (configuration w)) as Hrow
    by (apply list_elem_of_here).
  assert (length (storedEditors (configuration w))
            < length (ConfigManager.getEditors (configuration w)))%nat as Hlt
    by (simpl; lia).
  destruct (delete_synthesized_row w item Hrow Hlt) as (_ & _ & H1 & H2 & _).
  split; [exact H1 | exact H2].
Defined.

End StoredEditors.

(** ** C8: the open-file flow *)

Section OpenFile.

Import Extension.

(** C8.  With a target URI the flow jumps with the target's path as
    [filePath]; line and column are the active document's position (line plus
    one, character as it is) when the active document's path equals the
    target's path, and 1 and 0 otherwise.  Without a URI the flow jumps with
    the active document's path, line plus one and character; when there is no
    active document it only shows the NoActiveEditor error. *)
Theorem openFileInIDEA_context (env : Environment) :
  (forall uri editor,
     activeTextEditor env = Some editor ->
     vscode.fsPath (vscode.document editor) = vscode.fsPath uri ->
     openFileInIDEA env (Some uri) =
       executeJump env
         (mkJumpContext (Some (vscode.fsPath uri)) None
            (Some (vscode.line (vscode.active editor) + 1))
            (Some (vscode.character (vscode.active editor))))) /\
  (forall uri,
     (activeTextEditor env = None \/
      exists editor, activeTextEditor env = Some editor /\
        vscode.fsPath (vscode.document editor) <> vscode.fsPath uri) ->
     openFileInIDEA env (Some uri) =
       executeJump env
         (mkJumpContext (Some (vscode.fsPath uri)) None (Some 1) (Some 0))) /\
  (forall editor,
     activeTextEditor env = Some editor ->
     openFileInIDEA env None =
       executeJump env
         (mkJumpContext (Some (vscode.fsPath (vscode.document editor))) None
            (Some (vscode.line (vscode.active editor) + 1))
            (Some (vscode.character (vscode.active editor))))) /\
  (activeTextEditor env = None ->
   forall w,
     openFileInIDEA env None w =
       (tt, mkWorld (configuration w)
                    (effects w ++
                       [ShowErrorMessage
                          "No active file! Please open a file first."]))).
Proof.
  unfold openFileInIDEA. repeat split.
  - intros uri editor -> Heq. rewrite Heq, String.eqb_refl. reflexivity.
  - intros uri [-> | (editor & -> & Hne)]; [reflexivity |].
    destruct (String.eqb_spec (vscode.fsPath (vscode.document editor))
                              (vscode.fsPath uri));
      [contradiction | reflexivity].
  - intros editor ->. reflexivity.
  - intros -> w. reflexivity.
Qed.

End OpenFile.

(** * Further properties of the code *)

(** ** The editor selector *)

Section Selector.

Import EditorSelector.

Lemma find_first_match {A : Type} (f : A -> bool) (before after : list A) (x : A) :
  Forall (fun y => f y = false) before -> f x = true ->
  find f (before ++ x :: after) = Some x.
Proof.
  induction before as [|y before IH]; intros Hb Hx; simpl.
  - rewrite Hx. reflexivity.
  - inversion Hb as [|? ? Hy Hb']; subst. rewrite Hy. apply IH; assumption.
Qed.

Lemma find_is_first {A : Type} (f : A -> bool) (l : list A) (x : A) :
  find f l = Some x ->
  exists i, l !! i = Some x /\ f x = true /\
    forall j y, (j < i)%nat -> l !! j = Some y -> f y = false.
Proof.
  induction l as [|a l IH]; simpl; [discriminate |].
  destruct (f a) eqn:Ha.
  - intros H. inversion H; subst. exists 0%nat.
    split; [reflexivity |]. split; [exact Ha |]. intros j y Hj. lia.
  - intros H. destruct (IH H) as (i & Hi & Hx & Hfirst).
    exists (S i). split; [exact Hi |]. split; [exact Hx |].
    intros [|j] y Hj Hy.
    + inversion Hy; subst. exact Ha.
    + apply (Hfirst j y); [lia | exact Hy].
Qed.

(** X1.  Whatever the user picks, [selectEditor] only returns an editor of the
    list it was given.  When the list has not exactly one entry, the editor
    carries the picked label as its name and is the first of the list that
    does. *)
Theorem selectEditor_sound (pick : option string) (editors : list EditorConfig)
    (e : EditorConfig) :
  selectEditor pick editors = Some e ->
  exists i : nat,
    editors !! i = Some e /\
    (length editors <> 1%nat ->
     pick = Some (name e) /\
     forall j e', (j < i)%nat -> editors !! j = Some e' -> name e' <> name e).
Proof.
  unfold selectEditor. intros H.
  assert (forall l, match pick with
                    | Some label => find (fun e => String.eqb (name e) label) l
                    | None => None
                    end = Some e ->
          exists i, l !! i = Some e /\ pick = Some (name e) /\
            forall j e', (j < i)%nat -> l !! j = Some e' -> name e' <> name e)
    as Hfind.
  { intros l Hl. destruct pick as [label|]; [| discriminate].
    apply find_is_first in Hl as (i & Hi & Hn & Hfirst).
    apply String.eqb_eq in Hn. subst label.
    exists i. split; [exact Hi |]. split; [reflexivity |].
    intros j e' Hj He'. apply String.eqb_neq. apply (Hfirst j e' Hj He'). }
  destruct editors as [|a [|b l]].
  - destruct (Hfind _ H) as (i & Hi & Hp & Hf). exists i. auto.
  - inversion H; subst. exists 0%nat. split; [reflexivity |].
    intros Hlen. simpl in Hlen. contradiction.
  - destruct (Hfind _ H) as (i & Hi & Hp & Hf). exists i. auto.
Qed.

Lemma selectEditor_sound_witness :
  exists i : nat,
    [ mkEditorConfig "A" jetbrains "/a" None;
      mkEditorConfig "B" custom "/b" None ] !! i
    = Some (mkEditorConfig "B" custom "/b" None).
Proof.
  destruct (selectEditor_sound (Some "B")
              [ mkEditorConfig "A" jetbrains "/a" None;
                mkEditorConfig "B" custom "/b" None ]
              (mkEditorConfig "B" custom "/b" None) eq_refl) as (i & Hi & _).
  exists i. exact Hi.
Defined.

(** X2.  Picking the label of an entry selects the first editor of the list
    with that name: the entry itself when no earlier editor shares its
    name. *)
Theorem selectEditor_first_of_name (before after : list EditorConfig)
    (e : EditorConfig) :
  Forall (fun x => name x <> name e) before ->
  selectEditor (Some (name e)) (before ++ e :: after) = Some e.
Proof.
  intros Hb. unfold selectEditor.
  assert (find (fun x => String.eqb (name x) (name e)) (before ++ e :: after)
          = Some e) as Hfind.
  { apply find_first_match; [| apply String.eqb_refl].
    eapply Forall_impl; [exact Hb |]. intros x Hx. simpl in Hx.
    apply String.eqb_neq. exact Hx. }
  destruct (before ++ e :: after) as [|a [|b l]] eqn:Hl.
  - destruct before; discriminate.
  - destruct before as [|x [|y before]]; simpl in Hl.
    + inversion Hl. reflexivity.
    + inversion Hl.
    + inversion Hl.
  - exact Hfind.
Qed.

Lemma selectEditor_first_of_name_witness :
  selectEditor (Some "B")
    ([ mkEditorConfig "A" jetbrains "/a" None ]
       ++ mkEditorConfig "B" custom "/b" None
       :: [ mkEditorConfig "B" jetbrains "/other" None ])
  = Some (mkEditorConfig "B" custom "/b" None).
Proof.
  apply (selectEditor_first_of_name
           [ mkEditorConfig "A" jetbrains "/a" None ]
           [ mkEditorConfig "B" jetbrains "/other" None ]
           (mkEditorConfig "B" custom "/b" None)).
  repeat constructor. discriminate.
Defined.

End Selector.

(** ** Registering handlers *)

(** X3.  After [registerHandler] the registry answers for the registered type
    with the new handler and for every other type as before; once a handler
    for [custom] is registered in the registry as constructed, [getHandler]
    throws for no type. *)
Theorem registerHandler_lookup (factory : JumpHandlerFactory.t)
    (type : EditorType) (handler : JumpHandler) :
  JumpHandlerFactory.getHandler
    (JumpHandlerFactory.registerHandler factory type handler) type
  = Return handler /\
  (forall type', type' <> type ->
     JumpHandlerFactory.getHandler
       (JumpHandlerFactory.registerHandler factory type handler) type'
     = JumpHandlerFactory.getHandler factory type') /\
  (forall type',
     exists h,
       JumpHandlerFactory.getHandler
         (JumpHandlerFactory.registerHandler JumpHandlerFactory.new custom handler)
         type'
       = Return h).
Proof.
  unfold JumpHandlerFactory.getHandler, JumpHandlerFactory.registerHandler.
  cbn [JumpHandlerFactory.handlers]. split; [| split].
  - rewrite lookup_insert_eq. reflexivity.
  - intros type' Hne. rewrite lookup_insert_ne by congruence. reflexivity.
  - intros [|]; unfold JumpHandlerFactory.new; cbn [JumpHandlerFactory.handlers].
    + rewrite lookup_insert_ne by discriminate. rewrite lookup_insert_eq.
      eexists. reflexivity.
    + rewrite lookup_insert_eq. eexists. reflexivity.
Qed.

(** ** More on stored editors *)

Section MoreStoredEditors.

Import EditorConfigCommands.

(** A rendered row points at its editor in the effective list. *)
Lemma row_lookup (config : Configuration) (item : EditorTreeItem) :
  EditorRow item ∈ EditorTreeDataProvider.getChildren config ->
  0 <= index item /\
  ConfigManager.getEditors config !! Z.to_nat (index item) = Some (editor item).
Proof.
  unfold EditorTreeDataProvider.getChildren.
  intros Hrow. apply elem_of_app in Hrow as [Hrow | Hrow].
  - apply list_elem_of_lookup in Hrow as [i Hi].
    rewrite list_lookup_imap in Hi.
    destruct (ConfigManager.getEditors config !! i) as [e|] eqn:He;
      simpl in Hi; [| discriminate].
    inversion Hi; subst. simpl. rewrite Nat2Z.id. split; [lia | exact He].
  - apply list_elem_of_singleton in Hrow. discriminate.
Qed.

(** X4.  [getChildren] gives one row per editor of the effective list, in
    its order and each with its position as index, followed by the single
    add-editor row. *)
Theorem getChildren_rows (config : Configuration) :
  let editors := ConfigManager.getEditors config in
  let rows := EditorTreeDataProvider.getChildren config in
  length rows = S (length editors) /\
  rows !! length editors = Some AddEditorRow /\
  (forall i e, editors !! i = Some e ->
     rows !! i = Some (EditorRow (mkEditorTreeItem e (Z.of_nat i)))) /\
  (forall item, EditorRow item ∈ rows ->
     0 <= index item /\
     editors !! Z.to_nat (index item) = Some (editor item)).
Proof.
  intros editors rows. subst rows.
  unfold EditorTreeDataProvider.getChildren. fold editors.
  split; [| split; [| split]].
  - rewrite length_app, length_imap. simpl. lia.
  - rewrite lookup_app_r by (rewrite length_imap; lia).
    rewrite length_imap, Nat.sub_diag. reflexivity.
  - intros i e Hi.
    rewrite lookup_app_l
      by (rewrite length_imap; apply lookup_lt_Some in Hi; exact Hi).
    rewrite list_lookup_imap, Hi. reflexivity.
  - intros item Hrow. apply row_lookup. exact Hrow.
Qed.

(** With a stored editor the effective list is the stored list. *)
Lemma getEditors_stored (config : Configuration) :
  storedEditors config <> [] ->
  ConfigManager.getEditors config = storedEditors config.
Proof.
  unfold storedEditors, ConfigManager.getEditors.
  destruct (editors config) as [[|e es]|]; simpl; intros H;
    [contradiction | reflexivity | contradiction].
Qed.

(** X5.  When the stored list is not empty, a confirmed [deleteEditor] on a
    rendered row takes out of the stored list the very editor the row shows,
    at the row's index, and nothing else. *)
Theorem deleteEditor_removes_shown (w : World) (item : EditorTreeItem) :
  EditorRow item ∈ EditorTreeDataProvider.getChildren (configuration w) ->
  storedEditors (configuration w) <> [] ->
  let stored := storedEditors (configuration w) in
  let i := Z.to_nat (index item) in
  stored !! i = Some (editor item) /\
  storedEditors (configuration (deleteEditor (Some "Delete") item w).2)
    = take i stored ++ drop (S i) stored /\
  stored = take i stored ++ editor item :: drop (S i) stored.
Proof.
  intros Hrow Hne stored i.
  destruct (row_lookup _ _ Hrow) as [Hidx Hlook].
  rewrite (getEditors_stored _ Hne) in Hlook. fold stored i in Hlook.
  split; [exact Hlook |]. split.
  - rewrite deleteEditor_confirmed. cbn [snd configuration].
    change (storedEditors _) with (splice1 stored (index item)).
    replace (index item) with (Z.of_nat i) by (subst i; lia).
    rewrite splice1_in_range by (apply lookup_lt_Some in Hlook; exact Hlook).
    apply delete_take_drop.
  - symmetry. apply take_drop_middle. exact Hlook.
Qed.

Lemma deleteEditor_removes_shown_witness :
  let a := mkEditorConfig "A" jetbrains "/a" None in
  let b := mkEditorConfig "B" custom "/b" None in
  let w := mkWorld (mkConfiguration (Some [a; b]) None None) [] in
  storedEditors
    (configuration (deleteEditor (Some "Delete") (mkEditorTreeItem b 1) w).2)
  = [a].
Proof.
  intros a b w.
  assert (EditorRow (mkEditorTreeItem b 1)
            ∈ EditorTreeDataProvider.getChildren (configuration w)) as Hrow
    by (apply list_elem_of_further, list_elem_of_here).
  assert (storedEditors (configuration w) <> []) as Hne by discriminate.
  exact (proj1 (proj2 (deleteEditor_removes_shown w _ Hrow Hne))).
Defined.


(** X7.  After [saveEditor] the effective list is the stored list with the
    new editor at its end: an entry synthesized from the legacy path or the
    built-in default is no longer part of it. *)
Theorem saveEditor_effective_list (w : World) (editor : EditorConfig) :
  ConfigManager.getEditors (configuration (saveEditor editor w).2)
  = storedEditors (configuration w) ++ [editor].
Proof.
  rewrite saveEditor_run. cbn [snd configuration].
  unfold ConfigManager.getEditors. cbn [editors].
  destruct (storedEditors (configuration w)); reflexivity.
Qed.

(** X8.  Removing the only stored editor brings the synthesized entry back:
    the effective list is then the one of a store without [editors]. *)
Theorem remove_only_editor (w : World) (e : EditorConfig) :
  storedEditors (configuration w) = [e] ->
  let config' := configuration (removeEditor 0 w).2 in
  editors config' = Some [] /\
  ConfigManager.getEditors config'
    = ConfigManager.getEditors
        (mkConfiguration None (ideaPath (configuration w))
                         (showTreeView (configuration w))) /\
  length (ConfigManager.getEditors config') = 1%nat /\
  (forall e', e' ∈ ConfigManager.getEditors config' ->
     name e' = "IntelliJ IDEA" /\ type e' = jetbrains).
Proof.
  intros Hs config'. subst config'.
  rewrite removeEditor_run, Hs. cbn [snd configuration].
  change (splice1 [e] 0) with (@nil EditorConfig).
  split; [reflexivity |]. split; [reflexivity |].
  unfold ConfigManager.getEditors. cbn [editors ideaPath ConfigManager.nonEmptyList].
  cbn [length Nat.ltb Nat.leb].
  destruct (asTruthy (ideaPath (configuration w))); (split; [reflexivity |]);
    intros e' He'; apply list_elem_of_singleton in He'; subst e'; auto.
Qed.

Lemma remove_only_editor_witness :
  ConfigManager.getEditors
    (configuration
       (removeEditor 0
          (mkWorld (mkConfiguration
                      (Some [mkEditorConfig "Vim" custom "/usr/bin/vim" None])
                      (Some "/opt/idea") None) [])).2)
  = [ mkEditorConfig "IntelliJ IDEA" jetbrains "/opt/idea" (Some "idea") ].
Proof.
  exact (proj1 (proj2 (remove_only_editor
    (mkWorld (mkConfiguration
                (Some [mkEditorConfig "Vim" custom "/usr/bin/vim" None])
                (Some "/opt/idea") None) [])
    (mkEditorConfig "Vim" custom "/usr/bin/vim" None) eq_refl))).
Defined.

(** X9.  Unless the answer to the warning is the Delete button, [deleteEditor]
    writes nothing: the configuration is untouched, the view is not
    refreshed, and the warning is the only thing shown. *)
Theorem deleteEditor_unconfirmed (w : World) (item : EditorTreeItem)
    (confirm : option string) :
  confirm <> Some "Delete" ->
  deleteEditor confirm item w =
    (tt, mkWorld (configuration w)
                 (effects w ++
                    [ ShowWarningMessage
                        ("Are you sure you want to delete " ^^ dquote
                           ^^ name (editor item) ^^ dquote ^^ "?") ])).
Proof.
  intros Hne. unfold deleteEditor.
  destruct (decide (confirm = Some "Delete")) as [Heq | _];
    [contradiction | reflexivity].
Qed.

Lemma deleteEditor_unconfirmed_witness :
  configuration
    (deleteEditor None
       (mkEditorTreeItem (mkEditorConfig "Vim" custom "/usr/bin/vim" None) 0)
       (mkWorld (mkConfiguration
                   (Some [mkEditorConfig "Vim" custom "/usr/bin/vim" None])
                   None None) [])).2
  = mkConfiguration (Some [mkEditorConfig "Vim" custom "/usr/bin/vim" None])
                    None None.
Proof.
  rewrite (deleteEditor_unconfirmed
             (mkWorld (mkConfiguration
                         (Some [mkEditorConfig "Vim" custom "/usr/bin/vim" None])
                         None None) [])
             (mkEditorTreeItem (mkEditorConfig "Vim" custom "/usr/bin/vim" None) 0)
             None ltac:(discriminate)).
  reflexivity.
Defined.

End MoreStoredEditors.

(** ** The add-editor and edit-editor flows *)

Section Flows.

Import EditorConfigCommands SidebarFlows.

Lemma added_run (e : EditorConfig) (w : World) :
  added e w =
    (tt, mkWorld (mkConfiguration
                    (Some (storedEditors (configuration w) ++ [e]))
                    (ideaPath (configuration w))
                    (showTreeView (configuration w)))
                 (effects w ++
                    [Refresh; ShowInformationMessage ("Editor added: " ^^ name e)])).
Proof.
  transitivity
    (tt, mkWorld (mkConfiguration
                    (Some (storedEditors (configuration w) ++ [e]))
                    (ideaPath (configuration w))
                    (showTreeView (configuration w)))
                 ((effects w ++ [Refresh])
                    ++ [ShowInformationMessage ("Editor added: " ^^ name e)]));
    [reflexivity |].
  rewrite <- app_assoc. reflexivity.
Qed.


Lemma storedEditors_written (l : list EditorConfig) (p : option string)
    (v : option bool) :
  storedEditors (mkConfiguration (Some l) p v) = l.
Proof. reflexivity. Qed.

Lemma app_one_neq {A : Type} (l : list A) (x : A) : l <> l ++ [x].
Proof.
  intros H. apply (f_equal length) in H. rewrite length_app in H.
  simpl in H. lia.
Qed.



(** X11.  The kind of the added editor follows the entry chosen in the first
    prompt.  With the JetBrains entry the editor is the chosen preset with
    the selected path; with the Custom entry it has type [custom], the
    entered name, the selected path and the entered URL scheme, absent when
    the entry was left empty or dismissed. *)
Theorem addEditor_kind (answers : AddEditorAnswers) (w : World)
    (tc : QuickPickItem.t) (e : EditorConfig) :
  typeChoice answers = Some tc -> tc ∈ typeItems ->
  storedEditors (configuration (addEditor answers w).2)
    = storedEditors (configuration w) ++ [e] ->
  asTruthy (selectEditorPath (addPath answers)) = Some (path e) /\
  ((QuickPickItem.label tc = "$(symbol-class) JetBrains IDE" /\
    exists p, presetChoice answers = Some p /\
      name e = Preset.name p /\ type e = Preset.type p /\
      urlScheme e = Preset.urlScheme p) \/
   (QuickPickItem.label tc = "$(symbol-misc) Custom Editor" /\
    type e = custom /\
    asTruthy (nameInput answers) = Some (name e) /\
    urlScheme e = asTruthy (urlSchemeInput answers))).
Proof.
  intros Htc Hin Hstored. unfold addEditor in Hstored. rewrite Htc in Hstored.
  apply list_elem_of_In in Hin.
  destruct Hin as [<- | [<- | []]];
    cbn [QuickPickItem.label] in Hstored |- *.
  - change (includes "$(symbol-class) JetBrains IDE" "JetBrains") with true
      in Hstored. cbn iota in Hstored.
    destruct (presetChoice answers) as [p|];
      [| exfalso; exact (app_one_neq _ _ Hstored)].
    destruct (asTruthy (selectEditorPath (addPath answers))) as [pth|];
      [| exfalso; exact (app_one_neq _ _ Hstored)].
    rewrite added_run in Hstored. cbn [snd configuration] in Hstored.
    rewrite storedEditors_written in Hstored.
    apply app_inv_head in Hstored. inversion Hstored; subst e.
    split; [reflexivity |]. left. split; [reflexivity |].
    exists p. auto.
  - change (includes "$(symbol-misc) Custom Editor" "JetBrains") with false
      in Hstored. cbn iota in Hstored.
    destruct (asTruthy (nameInput answers)) as [n|];
      [| exfalso; exact (app_one_neq _ _ Hstored)].
    destruct (asTruthy (selectEditorPath (addPath answers))) as [pth|];
      [| exfalso; exact (app_one_neq _ _ Hstored)].
    rewrite added_run in Hstored. cbn [snd configuration] in Hstored.
    rewrite storedEditors_written in Hstored.
    apply app_inv_head in Hstored. inversion Hstored; subst e.
    split; [reflexivity |]. right. auto.
Qed.

Lemma addEditor_kind_witness :
  let answers :=
    mkAddEditorAnswers
      (Some (QuickPickItem.mk "$(symbol-misc) Custom Editor"
               (Some "Manual configuration") None))
      None (Some "Sublime Text")
      (mkPathAnswers
         (Some (QuickPickItem.mk "$(folder-opened) Browse..." None None))
         (Some [vscode.mkUri "/opt/sublime/subl"]) None)
      (Some EmptyString) in
  let e := mkEditorConfig "Sublime Text" custom "/opt/sublime/subl" None in
  asTruthy (selectEditorPath (addPath answers)) = Some (path e).
Proof.
  intros answers e.
  refine (proj1 (addEditor_kind answers
                   (mkWorld (mkConfiguration None None None) [])
                   (QuickPickItem.mk "$(symbol-misc) Custom Editor"
                      (Some "Manual configuration") None)
                   e eq_refl _ eq_refl)).
  apply list_elem_of_further, list_elem_of_here.
Defined.

(** The assignment [editors[index] = editor] at a position of the array. *)
Lemma assignIndex_in_range {A : Type} (l : list A) (i : nat) (x : A) :
  (i < length l)%nat -> assignIndex l (Z.of_nat i) x = Some (<[i := x]> l).
Proof.
  intros Hi. unfold assignIndex.
  destruct (Z.ltb_spec (Z.of_nat i) 0); [lia |].
  destruct (Z.ltb_spec (Z.of_nat i) (Z.of_nat (length l))); [| lia].
  rewrite Nat2Z.id. reflexivity.
Qed.

Lemma editField_keeps_type (answers : EditEditorAnswers) (fieldLabel : string)
    (e : EditorConfig) :
  type (editField answers fieldLabel e).2 = type e.
Proof.
  unfold editField.
  destruct (String.eqb fieldLabel "Name");
    [destruct (asTruthy (newName answers)); reflexivity |].
  destruct (String.eqb fieldLabel "Path");
    [destruct (asTruthy (selectEditorPath (editPath answers))); reflexivity |].
  destruct (String.eqb fieldLabel "URL Scheme"); reflexivity.
Qed.

(** X12.  On a rendered row, with a stored list that is not empty,
    [editEditor] goes through whatever the user answers: the item keeps its
    index and its editor keeps its type; the stored list keeps its length and
    every entry at another position; the legacy path and the visibility flag
    are untouched. *)
Theorem editEditor_in_place (answers : EditEditorAnswers)
    (item : EditorTreeItem) (w : World) :
  EditorRow item ∈ EditorTreeDataProvider.getChildren (configuration w) ->
  storedEditors (configuration w) <> [] ->
  exists item' w',
    editEditor answers item w = Some (item', w') /\
    index item' = index item /\
    type (editor item') = type (editor item) /\
    ideaPath (configuration w') = ideaPath (configuration w) /\
    showTreeView (configuration w') = showTreeView (configuration w) /\
    length (storedEditors (configuration w'))
      = length (storedEditors (configuration w)) /\
    (forall j, j <> Z.to_nat (index item) ->
       storedEditors (configuration w') !! j
         = storedEditors (configuration w) !! j) /\
    (configuration w' = configuration w \/
     storedEditors (configuration w') !! Z.to_nat (index item)
       = Some (editor item')).
Proof.
  intros Hrow Hne.
  destruct (row_lookup _ _ Hrow) as [Hidx Hlook].
  rewrite (getEditors_stored _ Hne) in Hlook.
  pose proof (lookup_lt_Some _ _ _ Hlook) as Hlt.
  unfold editEditor.
  destruct (fieldChoice answers) as [fc|].
  2:{ exists item, w. repeat split; auto. }
  pose proof (editField_keeps_type answers (QuickPickItem.label fc) (editor item))
    as Htype.
  destruct (editField answers (QuickPickItem.label fc) (editor item))
    as [newValue ed]. cbn [snd] in Htype.
  destruct newValue as [v|].
  2:{ exists (mkEditorTreeItem ed (index item)), w. repeat split; auto. }
  assert (assignIndex (storedEditors (configuration w)) (index item) ed
          = Some (<[Z.to_nat (index item) := ed]> (storedEditors (configuration w))))
    as Hassign.
  { rewrite <- (assignIndex_in_range _ _ ed Hlt). f_equal. lia. }
  unfold updateEditor. cbn [index]. rewrite Hassign.
  eexists. eexists. split; [reflexivity |].
  unfold emit. cbn [snd configuration index editor ideaPath showTreeView].
  rewrite !storedEditors_written.
  repeat split; auto.
  - apply length_insert.
  - intros j Hj. apply list_lookup_insert_ne. congruence.
  - right. apply list_lookup_insert_eq. exact Hlt.
Qed.

Lemma editEditor_in_place_witness :
  let a := mkEditorConfig "A" jetbrains "/a" None in
  let w := mkWorld (mkConfiguration (Some [a]) None None) [] in
  let answers :=
    mkEditEditorAnswers (Some (QuickPickItem.mk "Name" (Some "A") None))
      (Some "A2") (mkPathAnswers None None None) None in
  exists item' w',
    editEditor answers (mkEditorTreeItem a 0) w = Some (item', w') /\
    index item' = 0.
Proof.
  intros a w answers.
  assert (EditorRow (mkEditorTreeItem a 0)
            ∈ EditorTreeDataProvider.getChildren (configuration w)) as Hrow
    by apply list_elem_of_here.
  assert (storedEditors (configuration w) <> []) as Hne by discriminate.
  destruct (editEditor_in_place answers _ w Hrow Hne)
    as (item' & w' & H1 & H2 & _).
  exists item', w'. split; assumption.
Defined.

(** X13.  Renaming the row that is synthesized while nothing is stored writes
    that row to the store: the stored list, empty before, then holds the
    renamed synthesized editor, which is the whole effective list. *)
Theorem editEditor_persists_synthesized (answers : EditEditorAnswers)
    (item : EditorTreeItem) (w : World) (fc : QuickPickItem.t) (n : string) :
  storedEditors (configuration w) = [] ->
  EditorRow item ∈ EditorTreeDataProvider.getChildren (configuration w) ->
  fieldChoice answers = Some fc -> QuickPickItem.label fc = "Name" ->
  newName answers = Some n -> n <> EmptyString ->
  let renamed :=
    mkEditorConfig n (type (editor item)) (path (editor item))
                   (urlScheme (editor item)) in
  exists w',
    editEditor answers item w = Some (mkEditorTreeItem renamed (index item), w') /\
    editors (configuration w') = Some [renamed] /\
    ConfigManager.getEditors (configuration w') = [renamed] /\
    effects w' =
      effects w ++ [Refresh; ShowInformationMessage ("Editor updated: " ^^ n)].
Proof.
  intros Hs Hrow Hfc Hlabel Hname Hn renamed.
  destruct (row_lookup _ _ Hrow) as [Hidx Hlook].
  assert (length (ConfigManager.getEditors (configuration w)) = 1%nat) as Hlen.
  { unfold storedEditors in Hs. unfold ConfigManager.getEditors.
    destruct (editors (configuration w)) as [[|a l]|]; simpl in Hs;
      try discriminate; simpl;
      destruct (asTruthy (ideaPath (configuration w))); reflexivity. }
  apply lookup_lt_Some in Hlook. rewrite Hlen in Hlook.
  assert (index item = 0) as Hzero by lia.
  unfold editEditor. rewrite Hfc, Hlabel. unfold editField.
  cbn [String.eqb Ascii.eqb Bool.eqb andb]. rewrite Hname.
  assert (asTruthy (Some n) = Some n) as -> by (apply asTruthy_Some; auto).
  fold renamed. unfold updateEditor. cbn [index]. rewrite Hs, Hzero.
  eexists. split; [reflexivity |].
  unfold emit. cbn [snd configuration effects editors].
  split; [reflexivity |]. split; [reflexivity |].
  rewrite <- app_assoc. reflexivity.
Qed.

Lemma editEditor_persists_synthesized_witness :
  let d := mkEditorConfig "IntelliJ IDEA" jetbrains EmptyString (Some "idea") in
  let w := mkWorld (mkConfiguration None None None) [] in
  let answers :=
    mkEditEditorAnswers (Some (QuickPickItem.mk "Name" (Some "IntelliJ IDEA") None))
      (Some "IDEA Ultimate") (mkPathAnswers None None None) None in
  exists w',
    editEditor answers (mkEditorTreeItem d 0) w
      = Some (mkEditorTreeItem
                (mkEditorConfig "IDEA Ultimate" jetbrains EmptyString (Some "idea"))
                0, w') /\
    editors (configuration w')
      = Some [mkEditorConfig "IDEA Ultimate" jetbrains EmptyString (Some "idea")].
Proof.
  intros d w answers.
  assert (EditorRow (mkEditorTreeItem d 0)
            ∈ EditorTreeDataProvider.getChildren (configuration w)) as Hrow
    by apply list_elem_of_here.
  destruct (editEditor_persists_synthesized answers (mkEditorTreeItem d 0) w
              (QuickPickItem.mk "Name" (Some "IntelliJ IDEA") None)
              "IDEA Ultimate" eq_refl Hrow eq_refl eq_refl eq_refl
              ltac:(discriminate)) as (w' & H1 & H2 & _).
  exists w'. split; assumption.
Defined.

(** X14.  Dismissing the input box of the URL scheme writes nothing and shows
    nothing, yet the editor of the item has lost its URL scheme: the field is
    assigned before the flow looks at the answer. *)
Theorem editEditor_scheme_dismissed (answers : EditEditorAnswers)
    (item : EditorTreeItem) (w : World) (fc : QuickPickItem.t) :
  fieldChoice answers = Some fc -> QuickPickItem.label fc = "URL Scheme" ->
  newUrlScheme answers = None ->
  editEditor answers item w =
    Some (mkEditorTreeItem
            (mkEditorConfig (name (editor item)) (type (editor item))
                            (path (editor item)) None)
            (index item), w).
Proof.
  intros Hfc Hlabel Hscheme. unfold editEditor. rewrite Hfc, Hlabel.
  unfold editField. cbn [String.eqb Ascii.eqb Bool.eqb andb].
  rewrite Hscheme. reflexivity.
Qed.

Lemma editEditor_scheme_dismissed_witness :
  let e := mkEditorConfig "PyCharm" jetbrains "/opt/pycharm" (Some "pycharm") in
  let w := mkWorld (mkConfiguration (Some [e]) None None) [] in
  editEditor
    (mkEditEditorAnswers
       (Some (QuickPickItem.mk "URL Scheme" (Some "pycharm") None))
       None (mkPathAnswers None None None) None)
    (mkEditorTreeItem e 0) w
  = Some (mkEditorTreeItem
            (mkEditorConfig "PyCharm" jetbrains "/opt/pycharm" None) 0, w).
Proof.
  intros e w.
  exact (editEditor_scheme_dismissed
           (mkEditEditorAnswers
              (Some (QuickPickItem.mk "URL Scheme" (Some "pycharm") None))
              None (mkPathAnswers None None None) None)
           (mkEditorTreeItem e 0) w
           (QuickPickItem.mk "URL Scheme" (Some "pycharm") None)
           eq_refl eq_refl eq_refl).
Defined.

End Flows.

(** ** More on command construction *)

Section MoreCommands.

Import JetBrainsHandler.

(** X15.  For a project target (no file path, a project path that is not
    empty) the darwin command opens
    [<scheme>://open?file=<encoded project path>] and the command line is
    ["<exe>" "<project path>"]: line and column, whatever they are, are left
    out. *)
Theorem project_target_commands (config : EditorConfig) (context : JumpContext)
    (appPath execPath p : string) :
  filePath context = None \/ filePath context = Some EmptyString ->
  projectPath context = Some p -> p <> EmptyString ->
  buildMacCommand config context appPath =
    Return ("open -a " ^^ dquote ^^ appPath ^^ dquote ^^ " " ^^ dquote
              ^^ (orElse (urlScheme config) "idea" ^^ "://open?file="
                    ^^ encodeURIComponent p)
              ^^ dquote) /\
  buildCliCommand context execPath =
    Return (dquote ^^ execPath ^^ dquote ^^ " " ^^ dquote ^^ p ^^ dquote).
Proof.
  intros Hf Hp Hne. apply asTruthy_None in Hf.
  assert (asTruthy (projectPath context) = Some p) as Hq
    by (apply asTruthy_Some; auto).
  unfold buildMacCommand, buildCliCommand. rewrite Hf, Hq.
  split; reflexivity.
Qed.

Lemma project_target_commands_witness :
  buildCliCommand (mkJumpContext None (Some "/w/proj") (Some 7) (Some 2)) "idea"
  = Return (dquote ^^ "idea" ^^ dquote ^^ " " ^^ dquote ^^ "/w/proj" ^^ dquote).
Proof.
  exact (proj2 (project_target_commands
                  (mkEditorConfig "IntelliJ IDEA" jetbrains EmptyString None)
                  (mkJumpContext None (Some "/w/proj") (Some 7) (Some 2))
                  "IntelliJ IDEA" "idea" "/w/proj"
                  (or_introl eq_refl) eq_refl ltac:(discriminate))).
Defined.

(** X16.  With a configured path that is not empty, [buildCommand] uses that
    path and nothing of the default-path resolution: the editor's name, the
    LOCALAPPDATA variable and the home directory do not change the
    command. *)
Theorem configured_path_verbatim (os os' : Os) (config config' : EditorConfig)
    (context : JumpContext) :
  path config <> EmptyString ->
  platform os' = platform os ->
  path config' = path config -> urlScheme config' = urlScheme config ->
  buildCommand os' config' context = buildCommand os config context /\
  buildCommand os config context =
    if String.eqb (platform os) "darwin"
    then buildMacCommand config context (path config)
    else buildCliCommand context (path config).
Proof.
  intros Hne Hpl Hpath Hscheme.
  assert (forall o c, path c = path config ->
            orElse (Some (path c))
                   (getDefaultPath o (platform o) (Some (name c)))
            = path config) as Hor.
  { intros o c Hc. unfold orElse.
    assert (asTruthy (Some (path c)) = Some (path config)) as ->
      by (apply asTruthy_Some; rewrite Hc; auto).
    reflexivity. }
  unfold buildCommand.
  rewrite (Hor os' config' Hpath), (Hor os config eq_refl), Hpl.
  split; [| reflexivity].
  destruct (String.eqb (platform os) "darwin"); [| reflexivity].
  unfold buildMacCommand. rewrite Hscheme. reflexivity.
Qed.

Lemma configured_path_verbatim_witness :
  buildCommand (mkOs "linux" None "/home/other")
    (mkEditorConfig "Anything" custom "/opt/goland/bin/goland.sh" None)
    (mkJumpContext (Some "/w/a.go") None (Some 3) (Some 0))
  = buildCommand (mkOs "linux" (Some "C:\x") "/home/u")
      (mkEditorConfig "GoLand" jetbrains "/opt/goland/bin/goland.sh" None)
      (mkJumpContext (Some "/w/a.go") None (Some 3) (Some 0)).
Proof.
  exact (proj1 (configured_path_verbatim
                  (mkOs "linux" (Some "C:\x") "/home/u")
                  (mkOs "linux" None "/home/other")
                  (mkEditorConfig "GoLand" jetbrains "/opt/goland/bin/goland.sh" None)
                  (mkEditorConfig "Anything" custom "/opt/goland/bin/goland.sh" None)
                  (mkJumpContext (Some "/w/a.go") None (Some 3) (Some 0))
                  ltac:(discriminate) eq_refl eq_refl eq_refl)).
Defined.

(** The two digits of an escape give the byte back. *)
Lemma unescape_hexDigits (c : ascii) :
  unescapeByte (hexDigit (nat_of_ascii c / 16)) (hexDigit (nat_of_ascii c mod 16))
  = c.
Proof. destruct c as [[] [] [] [] [] [] [] []]; vm_compute; reflexivity. Qed.

Lemma encodeURIComponent_cons (c : ascii) (s : string) :
  encodeURIComponent (String c s) =
    (if unreserved c then String c EmptyString else percentEncode c)
      ^^ encodeURIComponent s.
Proof. reflexivity. Qed.

(** X17.  [encodeURIComponent] is injective: two different paths never give
    the same encoded text, so never the same URL. *)
Theorem encodeURIComponent_injective (s t : string) :
  encodeURIComponent s = encodeURIComponent t -> s = t.
Proof.
  revert t. induction s as [|c s IH]; intros [|d t] H.
  - reflexivity.
  - rewrite encodeURIComponent_cons in H. unfold percentEncode in H.
    destruct (unreserved d); rewrite ?append_cons in H; discriminate.
  - rewrite encodeURIComponent_cons in H. unfold percentEncode in H.
    destruct (unreserved c); rewrite ?append_cons in H; discriminate.
  - rewrite !encodeURIComponent_cons in H. unfold percentEncode in H.
    destruct (unreserved c) eqn:Hc; destruct (unreserved d) eqn:Hd;
      rewrite ?append_cons, ?append_nil_l in H.
    + inversion H. f_equal. apply IH. assumption.
    + inversion H; subst c. vm_compute in Hc. discriminate.
    + inversion H; subst d. vm_compute in Hd. discriminate.
    + inversion H as [[Hhi Hlo Hrest]].
      assert (c = d) as ->.
      { rewrite <- (unescape_hexDigits c), <- (unescape_hexDigits d).
        f_equal; [exact Hhi | exact Hlo]. }
      f_equal. apply IH. exact Hrest.
Qed.

Lemma encodeURIComponent_injective_witness :
  encodeURIComponent "/a b" <> encodeURIComponent "/a%20b".
Proof.
  intros H. apply (encodeURIComponent_injective "/a b" "/a%20b") in H.
  discriminate H.
Defined.




Lemma length_append (a b : string) :
  String.length (a ^^ b) = (String.length a + String.length b)%nat.
Proof.
  induction a as [|x a IH]; [reflexivity |].
  rewrite append_cons. simpl. rewrite IH. reflexivity.
Qed.



(** X19.  The preset list and the default-path table agree on every preset
    but RustRover: the default application on darwin is the preset's own
    name, and the Toolbox script on win32 and linux is named after the
    preset's URL scheme. *)
Theorem presets_resolve (os : Os) (p : Preset.t) (scheme : string) :
  p ∈ JETBRAINS_PRESETS -> Preset.name p <> "RustRover" ->
  Preset.urlScheme p = Some scheme ->
  getDefaultPath os "darwin" (Some (Preset.name p)) = Preset.name p /\
  getDefaultPath os "win32" (Some (Preset.name p)) =
    template (LOCALAPPDATA os) ^^ "\JetBrains\Toolbox\scripts\" ^^ scheme /\
  getDefaultPath os "linux" (Some (Preset.name p)) =
    homedir os ^^ "/.local/share/JetBrains/Toolbox/scripts/" ^^ scheme.
Proof.
  intros Hp Hrr Hs. apply list_elem_of_In in Hp.
  repeat (destruct Hp as [<- | Hp];
          [try (exfalso; apply Hrr; reflexivity);
           inversion Hs; subst scheme; repeat split; reflexivity |]).
  destruct Hp.
Qed.

Lemma presets_resolve_witness :
  getDefaultPath (mkOs "linux" None "/home/u") "linux" (Some "Android Studio")
  = "/home/u" ^^ "/.local/share/JetBrains/Toolbox/scripts/" ^^ "studio".
Proof.
  refine (proj2 (proj2 (presets_resolve (mkOs "linux" None "/home/u")
            (Preset.mk "Android Studio" jetbrains (Some "studio")) "studio"
            _ ltac:(discriminate) eq_refl))).
  apply list_elem_of_In. simpl. tauto.
Defined.

Lemma append_not_empty_r (a b : string) :
  b <> EmptyString -> a ^^ b <> EmptyString.
Proof.
  intros Hb H. apply (f_equal String.length) in H.
  rewrite length_append in H. destruct b; [contradiction | simpl in H; lia].
Qed.

(** X20.  [getDefaultPath] never returns an empty path.  A platform other
    than win32 and linux gets the darwin answer, and a missing or empty
    editor name the answer for IntelliJ IDEA. *)
Theorem getDefaultPath_fallbacks (os : Os) (platform : string)
    (editorName : option string) :
  getDefaultPath os platform editorName <> EmptyString /\
  (platform <> "win32" -> platform <> "linux" ->
   getDefaultPath os platform editorName = getDefaultPath os "darwin" editorName) /\
  getDefaultPath os platform None
    = getDefaultPath os platform (Some "IntelliJ IDEA") /\
  getDefaultPath os platform (Some EmptyString)
    = getDefaultPath os platform (Some "IntelliJ IDEA").
Proof.
  split; [| split; [| split; reflexivity]].
  - unfold getDefaultPath.
    set (info := findApp _ appNameMap ideaInfo).
    assert (mac info <> EmptyString) as Hmac.
    { assert (forallb (fun i => negb (String.eqb (mac i) EmptyString))
                      (ideaInfo :: map snd appNameMap) = true) as Hall
        by (vm_compute; reflexivity).
      rewrite forallb_forall in Hall.
      assert (In info (ideaInfo :: map snd appNameMap)) as Hin.
      { subst info. destruct (findApp_in
          (orElse (toLowerCase <$> editorName) "intellij idea")
          appNameMap ideaInfo) as [-> | Hin];
          [left; reflexivity | right; exact Hin]. }
      apply Hall in Hin. apply negb_true_iff in Hin.
      apply String.eqb_neq in Hin. exact Hin. }
    destruct (String.eqb platform "darwin"); [exact Hmac |].
    destruct (String.eqb platform "win32").
    { rewrite <- append_assoc. apply append_not_empty_r.
      pose proof (table_slugs (orElse (toLowerCase <$> editorName) "intellij idea"))
        as Hs.
      fold info in Hs. unfold slugs_ok in Hs.
      apply andb_true_iff in Hs as [Hw _]. apply String.eqb_eq in Hw.
      intros He. rewrite He in Hw.
      assert (forallb (fun i => negb (String.eqb (win i) "64.exe"))
                      (ideaInfo :: map snd appNameMap) = true) as Hall
        by (vm_compute; reflexivity).
      rewrite forallb_forall in Hall.
      assert (In info (ideaInfo :: map snd appNameMap)) as Hin.
      { subst info. destruct (findApp_in
          (orElse (toLowerCase <$> editorName) "intellij idea")
          appNameMap ideaInfo) as [-> | Hin];
          [left; reflexivity | right; exact Hin]. }
      apply Hall in Hin. apply negb_true_iff in Hin.
      apply String.eqb_neq in Hin. apply Hin. exact Hw. }
    destruct (String.eqb platform "linux"); [| exact Hmac].
    intros He. apply (f_equal String.length) in He.
    rewrite !length_append in He. simpl in He. lia.
  - intros Hw Hl. unfold getDefaultPath.
    destruct (String.eqb platform "darwin"); [reflexivity |].
    destruct (String.eqb_spec platform "win32"); [contradiction |].
    destruct (String.eqb_spec platform "linux"); [contradiction |].
    reflexivity.
Qed.

End MoreCommands.

(** ** The jump commands, end to end *)

Section JumpFlows.

Import Extension JumpCommands.

Lemma awaitJump_run (es : list Effect) (s : Settled) (w : World) :
  awaitJump (es, s) w =
    (tt, mkWorld (configuration w)
                 (effects w ++ es ++
                    match s with
                    | Resolved => []
                    | Rejected m => [ShowErrorMessage m]
                    end)).
Proof.
  destruct s.
  - transitivity (tt, mkWorld (configuration w) (effects w ++ es));
      [reflexivity | rewrite app_nil_r; reflexivity].
  - transitivity (tt, mkWorld (configuration w)
                              ((effects w ++ es) ++ [ShowErrorMessage reason]));
      [reflexivity | rewrite <- app_assoc; reflexivity].
Qed.

Lemma executeJump_run (env : Environment) (context : JumpContext) (w : World) :
  executeJump env context w =
    match EditorSelector.selectEditor (pick env)
            (ConfigManager.getEditors (configuration w)) with
    | None => (tt, w)
    | Some selectedEditor => executeJumpToEditor env selectedEditor context w
    end.
Proof.
  unfold executeJump, executeJumpToEditor.
  change ((getConfiguration ≫= ?f) w) with (f (configuration w) w).
  cbv beta.
  destruct (EditorSelector.selectEditor (pick env)
              (ConfigManager.getEditors (configuration w)));
    reflexivity.
Qed.

Lemma executeJumpToEditor_jetbrains (env : Environment) (editor : EditorConfig)
    (context : JumpContext) (w : World) :
  jumpHandlerFactory env = JumpHandlerFactory.new -> type editor = jetbrains ->
  executeJumpToEditor env editor context w =
    awaitJump (JetBrainsHandler.jump (os env) (exec env) editor context) w.
Proof.
  intros Hf Ht. unfold executeJumpToEditor. rewrite Hf, Ht. reflexivity.
Qed.

(** A list of at most one stored editor gives one effective editor. *)
Lemma single_effective (config : Configuration) :
  (length (EditorConfigCommands.storedEditors config) <= 1)%nat ->
  exists e, ConfigManager.getEditors config = [e].
Proof.
  unfold EditorConfigCommands.storedEditors, ConfigManager.getEditors.
  destruct (editors config) as [[|a [|b l]]|]; simpl; intros H;
    try lia; try (eexists; reflexivity);
    destruct (asTruthy (ideaPath config)); eexists; reflexivity.
Qed.

(** X21.  A failed launch is notified twice: [executeCommand] shows the
    message and rejects with it, and the jump flow shows the message of the
    rejection again.  A command that cannot be built is notified once. *)
Theorem launch_failure_shown_twice (env : Environment) (editor : EditorConfig)
    (context : JumpContext) (w : World) :
  jumpHandlerFactory env = JumpHandlerFactory.new -> type editor = jetbrains ->
  (forall command error,
     JetBrainsHandler.buildCommand (os env) editor context = Return command ->
     exec env command = Some error ->
     exists msg,
       executeJumpToEditor env editor context w =
         (tt, mkWorld (configuration w)
                      (effects w ++ [ShowErrorMessage msg; ShowErrorMessage msg]))) /\
  (forall m,
     JetBrainsHandler.buildCommand (os env) editor context = Throw m ->
     executeJumpToEditor env editor context w =
       (tt, mkWorld (configuration w) (effects w ++ [ShowErrorMessage m]))).
Proof.
  intros Hf Ht. split.
  - intros command error Hb He.
    rewrite (executeJumpToEditor_jetbrains _ _ _ _ Hf Ht).
    unfold JetBrainsHandler.jump. rewrite Hb, He.
    unfold JetBrainsHandler.executeCommand.
    eexists. rewrite awaitJump_run. reflexivity.
  - intros m Hb.
    rewrite (executeJumpToEditor_jetbrains _ _ _ _ Hf Ht).
    unfold JetBrainsHandler.jump. rewrite Hb.
    rewrite awaitJump_run. reflexivity.
Qed.

Lemma launch_failure_shown_twice_witness :
  let env :=
    mkEnvironment (mkOs "linux" None "/home/u")
      (fun _ => Some (mkExecException "spawn ENOENT" None))
      None JumpHandlerFactory.new None in
  let editor := mkEditorConfig "GoLand" jetbrains "/opt/goland" None in
  let context := mkJumpContext (Some "/w/a.go") None None None in
  exists msg,
    executeJumpToEditor env editor context (mkWorld (mkConfiguration None None None) [])
    = (tt, mkWorld (mkConfiguration None None None)
                   ([] ++ [ShowErrorMessage msg; ShowErrorMessage msg])).
Proof.
  intros env editor context.
  exact (proj1 (launch_failure_shown_twice env editor context
                  (mkWorld (mkConfiguration None None None) [])
                  eq_refl eq_refl) _ _ eq_refl eq_refl).
Defined.

(** X22.  With the registry as constructed, an editor of type [custom] cannot
    be launched: a jump to it, directly or as the only effective editor,
    ends in the UnsupportedEditorType notification, whatever the target and
    without a command being run. *)
Theorem custom_editor_unsupported (env : Environment) (editor : EditorConfig)
    (context : JumpContext) (w : World) :
  jumpHandlerFactory env = JumpHandlerFactory.new -> type editor = custom ->
  let refused :=
    (tt, mkWorld (configuration w)
                 (effects w ++
                    [ShowErrorMessage
                       "Unsupported editor type: custom. Currently supported types: jetbrains"]))
  in
  executeJumpToEditor env editor context w = refused /\
  (ConfigManager.getEditors (configuration w) = [editor] ->
   executeJump env context w = refused).
Proof.
  intros Hf Ht refused.
  assert (executeJumpToEditor env editor context w = refused) as H
    by (unfold executeJumpToEditor; rewrite Hf, Ht; reflexivity).
  split; [exact H |].
  intros Hl. rewrite executeJump_run, Hl. exact H.
Qed.

Lemma custom_editor_unsupported_witness :
  let env :=
    mkEnvironment (mkOs "linux" None "/home/u") (fun _ => None) None
      JumpHandlerFactory.new None in
  let editor := mkEditorConfig "Vim" custom "/usr/bin/vim" None in
  let w := mkWorld (mkConfiguration (Some [editor]) None None) [] in
  executeJump env (mkJumpContext (Some "/w/a.txt") None (Some 1) (Some 0)) w
  = (tt, mkWorld (configuration w)
                 ([] ++
                    [ShowErrorMessage
                       "Unsupported editor type: custom. Currently supported types: jetbrains"])).
Proof.
  intros env editor w.
  exact (proj2 (custom_editor_unsupported env editor
                  (mkJumpContext (Some "/w/a.txt") None (Some 1) (Some 0)) w
                  eq_refl eq_refl) eq_refl).
Defined.

(** X23.  With at most one stored editor there is one effective editor and
    the answer to the selection prompt plays no role: the jump is the direct
    jump to that editor. *)
Theorem single_editor_no_prompt (env : Environment) (context : JumpContext)
    (w : World) :
  (length (EditorConfigCommands.storedEditors (configuration w)) <= 1)%nat ->
  exists e,
    ConfigManager.getEditors (configuration w) = [e] /\
    forall answer,
      executeJump
        (mkEnvironment (os env) (exec env) (activeTextEditor env)
                       (jumpHandlerFactory env) answer)
        context w
      = executeJumpToEditor env e context w.
Proof.
  intros Hlen. destruct (single_effective _ Hlen) as [e He].
  exists e. split; [exact He |].
  intros answer. rewrite executeJump_run, He. reflexivity.
Qed.

Lemma single_editor_no_prompt_witness :
  exists e,
    ConfigManager.getEditors (mkConfiguration None (Some "/opt/idea") None) = [e].
Proof.
  destruct (single_editor_no_prompt
              (mkEnvironment (mkOs "linux" None "/home/u") (fun _ => None) None
                             JumpHandlerFactory.new None)
              (mkJumpContext None (Some "/w") None None)
              (mkWorld (mkConfiguration None (Some "/opt/idea") None) [])
              ltac:(simpl; lia)) as (e & He & _).
  exists e. exact He.
Defined.

(** X24.  A jump runs one command at most, the one [buildCommand] gives: two
    operating systems that answer alike on that command give the same
    jump. *)
Theorem jump_runs_built_command (env : Environment) (editor : EditorConfig)
    (context : JumpContext) (w : World)
    (exec' : string -> option ExecException) :
  jumpHandlerFactory env = JumpHandlerFactory.new ->
  (forall command,
     JetBrainsHandler.buildCommand (os env) editor context = Return command ->
     exec' command = exec env command) ->
  executeJumpToEditor
    (mkEnvironment (os env) exec' (activeTextEditor env)
                   (jumpHandlerFactory env) (pick env))
    editor context w
  = executeJumpToEditor env editor context w.
Proof.
  intros Hf Hsame. unfold executeJumpToEditor.
  cbn [jumpHandlerFactory os exec]. rewrite Hf.
  destruct (type editor).
  - change (JumpHandlerFactory.getHandler JumpHandlerFactory.new jetbrains)
      with (Return jetBrainsHandler).
    cbn [jump jetBrainsHandler]. unfold JetBrainsHandler.jump.
    destruct (JetBrainsHandler.buildCommand (os env) editor context) as [cmd|m];
      [| reflexivity].
    rewrite (Hsame cmd eq_refl). reflexivity.
  - reflexivity.
Qed.

Lemma jump_runs_built_command_witness :
  let env :=
    mkEnvironment (mkOs "linux" None "/home/u") (fun _ => None) None
      JumpHandlerFactory.new None in
  let editor := mkEditorConfig "GoLand" jetbrains "/opt/goland" None in
  let context := mkJumpContext None (Some "/w") None None in
  let w := mkWorld (mkConfiguration None None None) [] in
  executeJumpToEditor
    (mkEnvironment (os env)
       (fun c => if String.eqb c (dquote ^^ "/opt/goland" ^^ dquote ^^ " "
                                    ^^ dquote ^^ "/w" ^^ dquote)
                 then None else Some (mkExecException "other" None))
       (activeTextEditor env) (jumpHandlerFactory env) (pick env))
    editor context w
  = executeJumpToEditor env editor context w.
Proof.
  intros env editor context w.
  apply (jump_runs_built_command env editor context w); [reflexivity |].
  intros command Hc. inversion Hc. reflexivity.
Defined.

(** X25.  Opening the active file with one effective JetBrains editor whose
    path is configured, off darwin: the command that is run is
    ["<path>" --line <line + 1> --column <character> "<file>"], and when it
    succeeds nothing is shown and nothing is written. *)
Theorem open_file_end_to_end (env : Environment) (w : World)
    (e : EditorConfig) (textEditor : vscode.TextEditor) :
  jumpHandlerFactory env = JumpHandlerFactory.new ->
  ConfigManager.getEditors (configuration w) = [e] ->
  type e = jetbrains -> path e <> EmptyString ->
  platform (os env) <> "darwin" ->
  activeTextEditor env = Some textEditor ->
  vscode.fsPath (vscode.document textEditor) <> EmptyString ->
  0 <= vscode.line (vscode.active textEditor) ->
  let command :=
    dquote ^^ path e ^^ dquote
      ^^ " --line " ^^ numToString (vscode.line (vscode.active textEditor) + 1)
      ^^ " --column " ^^ numToString (vscode.character (vscode.active textEditor))
      ^^ " " ^^ dquote ^^ vscode.fsPath (vscode.document textEditor) ^^ dquote in
  JetBrainsHandler.buildCommand (os env) e
    (mkJumpContext (Some (vscode.fsPath (vscode.document textEditor))) None
       (Some (vscode.line (vscode.active textEditor) + 1))
       (Some (vscode.character (vscode.active textEditor))))
  = Return command /\
  (exec env command = None -> openFileInIDEA env None w = (tt, w)) /\
  (forall error, exec env command = Some error ->
     configuration (openFileInIDEA env None w).2 = configuration w /\
     effects (openFileInIDEA env None w).2 <> effects w).
Proof.
  intros Hf He Ht Hp Hpl Hact Hfile Hline command.
  set (context :=
         mkJumpContext (Some (vscode.fsPath (vscode.document textEditor))) None
           (Some (vscode.line (vscode.active textEditor) + 1))
           (Some (vscode.character (vscode.active textEditor)))).
  assert (JetBrainsHandler.buildCommand (os env) e context = Return command)
    as Hbuild.
  { rewrite (buildCommand_other _ _ _ Hpl). unfold JetBrainsHandler.buildCliCommand.
    subst context. cbn [filePath line column].
    assert (asTruthy (Some (vscode.fsPath (vscode.document textEditor)))
            = Some (vscode.fsPath (vscode.document textEditor))) as ->
      by (apply asTruthy_Some; auto).
    assert (orElse (Some (path e))
              (JetBrainsHandler.getDefaultPath (os env) (platform (os env))
                 (Some (name e))) = path e) as ->.
    { unfold orElse.
      assert (asTruthy (Some (path e)) = Some (path e)) as ->
        by (apply asTruthy_Some; auto).
      reflexivity. }
    cbn [asTruthyNum].
    destruct (Z.eqb_spec (vscode.line (vscode.active textEditor) + 1) 0);
      [lia |].
    subst command. norm_append. reflexivity. }
  assert (openFileInIDEA env None w =
            awaitJump (JetBrainsHandler.jump (os env) (exec env) e context) w)
    as Hopen.
  { unfold openFileInIDEA. rewrite Hact. fold context.
    rewrite executeJump_run, He. cbn [EditorSelector.selectEditor].
    apply executeJumpToEditor_jetbrains; assumption. }
  split; [exact Hbuild |]. split.
  - intros Hex. rewrite Hopen. unfold JetBrainsHandler.jump.
    rewrite Hbuild, Hex. cbn [JetBrainsHandler.executeCommand].
    rewrite awaitJump_run. rewrite app_nil_r. destruct w; reflexivity.
  - intros error Hex. rewrite Hopen. unfold JetBrainsHandler.jump.
    rewrite Hbuild, Hex. unfold JetBrainsHandler.executeCommand.
    rewrite awaitJump_run. cbn [snd configuration effects].
    split; [reflexivity |].
    intros H. apply (f_equal length) in H. rewrite !length_app in H.
    simpl in H. lia.
Qed.

Lemma open_file_end_to_end_witness :
  let env :=
    mkEnvironment (mkOs "linux" None "/home/u") (fun _ => None)
      (Some (vscode.mkTextEditor (vscode.mkUri "/w/a.go") (vscode.mkPosition 9 4)))
      JumpHandlerFactory.new None in
  let e := mkEditorConfig "GoLand" jetbrains "/opt/goland" None in
  let w := mkWorld (mkConfiguration (Some [e]) None None) [] in
  JetBrainsHandler.buildCommand (os env) e
    (mkJumpContext (Some "/w/a.go") None (Some (9 + 1)) (Some 4))
  = Return (dquote ^^ "/opt/goland" ^^ dquote ^^ " --line 10 --column 4 "
              ^^ dquote ^^ "/w/a.go" ^^ dquote).
Proof.
  intros env e w.
  exact (proj1 (open_file_end_to_end env w e
                  (vscode.mkTextEditor (vscode.mkUri "/w/a.go")
                                       (vscode.mkPosition 9 4))
                  eq_refl eq_refl eq_refl ltac:(discriminate)
                  ltac:(discriminate) eq_refl ltac:(discriminate)
                  ltac:(simpl; lia))).
Defined.

(** X26.  Opening the project: without an open folder only the NoWorkspace
    error is shown; otherwise the first folder is the project target of the
    jump, and with one effective JetBrains editor off darwin the command is
    ["<exe>" "<folder>"]. *)
Theorem open_project_flow (env : Environment) (w : World) :
  (forall folders, folders = None \/ folders = Some [] ->
     openProjectInIDEA env folders w =
       (tt, mkWorld (configuration w)
                    (effects w ++
                       [ShowErrorMessage
                          "No workspace open! Please open a project folder first."]))) /\
  (forall folder rest,
     openProjectInIDEA env (Some (folder :: rest)) w =
       executeJump env
         (mkJumpContext None (Some (vscode.fsPath folder)) None None) w) /\
  (forall folder rest e,
     jumpHandlerFactory env = JumpHandlerFactory.new ->
     ConfigManager.getEditors (configuration w) = [e] ->
     type e = jetbrains -> platform (os env) <> "darwin" ->
     vscode.fsPath folder <> EmptyString ->
     let command :=
       dquote
         ^^ orElse (Some (path e))
                   (JetBrainsHandler.getDefaultPath (os env) (platform (os env))
                      (Some (name e)))
         ^^ dquote ^^ " " ^^ dquote ^^ vscode.fsPath folder ^^ dquote in
     exec env command = None ->
     openProjectInIDEA env (Some (folder :: rest)) w = (tt, w)).
Proof.
  split; [| split].
  - intros folders [-> | ->]; reflexivity.
  - intros folder rest. reflexivity.
  - intros folder rest e Hf He Ht Hpl Hfolder command Hex.
    unfold openProjectInIDEA. rewrite executeJump_run, He.
    cbn [EditorSelector.selectEditor].
    rewrite (executeJumpToEditor_jetbrains _ _ _ _ Hf Ht).
    unfold JetBrainsHandler.jump.
    rewrite (buildCommand_other _ _ _ Hpl).
    unfold JetBrainsHandler.buildCliCommand. cbn [filePath projectPath asTruthy].
    assert (asTruthy (Some (vscode.fsPath folder)) = Some (vscode.fsPath folder))
      as Hq by (apply asTruthy_Some; auto).
    cbn [asTruthy] in Hq. rewrite Hq. fold command. rewrite Hex.
    cbn [JetBrainsHandler.executeCommand].
    rewrite awaitJump_run, app_nil_r. destruct w; reflexivity.
Qed.

(** X27.  Jumping from the row of the only effective editor is the open-file
    command without a target: the same jump with an active document, the
    same NoActiveEditor error without one. *)
Theorem jumpToEditor_agrees (env : Environment) (item : EditorTreeItem)
    (w : World) :
  ConfigManager.getEditors (configuration w) = [editor item] ->
  jumpToEditor env item w = openFileInIDEA env None w.
Proof.
  intros He. unfold jumpToEditor, openFileInIDEA.
  destruct (activeTextEditor env) as [textEditor|]; [| reflexivity].
  rewrite executeJump_run, He. reflexivity.
Qed.

Lemma jumpToEditor_agrees_witness :
  let env :=
    mkEnvironment (mkOs "linux" None "/home/u") (fun _ => None)
      (Some (vscode.mkTextEditor (vscode.mkUri "/w/a.go") (vscode.mkPosition 9 4)))
      JumpHandlerFactory.new None in
  let e := mkEditorConfig "IntelliJ IDEA" jetbrains EmptyString (Some "idea") in
  let w := mkWorld (mkConfiguration None None None) [] in
  jumpToEditor env (mkEditorTreeItem e 0) w = openFileInIDEA env None w.
Proof.
  intros env e w.
  exact (jumpToEditor_agrees env (mkEditorTreeItem e 0) w eq_refl).
Defined.

End JumpFlows.

(** ** Concrete runs *)

Section Runs.

Import JetBrainsHandler.

Example empty_store_default :
  ConfigManager.getEditors (mkConfiguration None None None) =
    [ mkEditorConfig "IntelliJ IDEA" jetbrains EmptyString (Some "idea") ].
Proof. reflexivity. Qed.

Example legacy_path_only :
  ConfigManager.getEditors (mkConfiguration (Some []) (Some "/opt/idea") None) =
    [ mkEditorConfig "IntelliJ IDEA" jetbrains "/opt/idea" (Some "idea") ].
Proof. reflexivity. Qed.

Example primary_list_wins :
  let stored := [ mkEditorConfig "Vim" custom "/usr/bin/vim" None ] in
  ConfigManager.getEditors (mkConfiguration (Some stored) (Some "/opt/idea") None)
    = stored.
Proof. reflexivity. Qed.

(** An empty [filePath] is no file target: the project path is opened. *)
Example empty_file_path_is_absent :
  buildCliCommand (mkJumpContext (Some EmptyString) (Some "/w") (Some 3) (Some 1))
                  "idea"
  = Return (dquote ^^ "idea" ^^ dquote ^^ " " ^^ dquote ^^ "/w" ^^ dquote).
Proof. reflexivity. Qed.

Example line_zero_column_zero :
  buildCliCommand (mkJumpContext (Some "/w/a.ts") None (Some 0) (Some 0)) "idea"
  = Return (dquote ^^ "idea" ^^ dquote ^^ " --column 0 "
              ^^ dquote ^^ "/w/a.ts" ^^ dquote).
Proof. reflexivity. Qed.

Example webstorm_paths :
  let os := mkOs "linux" (Some "C:\Users\u\AppData\Local") "/home/u" in
  getDefaultPath os "darwin" (Some "My WebStorm 2024") = "WebStorm" /\
  getDefaultPath os "win32" (Some "My WebStorm 2024") =
    "C:\Users\u\AppData\Local\JetBrains\Toolbox\scripts\webstorm" /\
  getDefaultPath os "linux" (Some "My WebStorm 2024") =
    "/home/u/.local/share/JetBrains/Toolbox/scripts/webstorm".
Proof. repeat split; reflexivity. Qed.

(** The first key in table order wins when the name contains several. *)
Example first_key_wins :
  getDefaultPath (mkOs "darwin" None "/home/u") "darwin"
                 (Some "WebStorm for IntelliJ IDEA") = "IntelliJ IDEA".
Proof. reflexivity. Qed.

Example enoent_is_not_found :
  executeCommand (mkOs "linux" None "/home/u")
    (Some (mkExecException "spawn idea ENOENT" None))
    (mkEditorConfig "GoLand" jetbrains EmptyString None)
  = ( [ ShowErrorMessage
          ("Cannot launch GoLand: " ^^ dquote
             ^^ "/home/u/.local/share/JetBrains/Toolbox/scripts/goland"
             ^^ dquote ^^ " not found. Please check the editor path config.") ],
      Rejected
        ("Cannot launch GoLand: " ^^ dquote
           ^^ "/home/u/.local/share/JetBrains/Toolbox/scripts/goland"
           ^^ dquote ^^ " not found. Please check the editor path config.") ).
Proof. reflexivity. Qed.

Example other_failure_is_execution_failed :
  executeCommand (mkOs "linux" None "/home/u")
    (Some (mkExecException "Command failed: exit 1" (Some 1)))
    (mkEditorConfig "GoLand" jetbrains "/opt/goland" None)
  = ( [ ShowErrorMessage "Failed to launch GoLand: Command failed: exit 1" ],
      Rejected "Failed to launch GoLand: Command failed: exit 1" ).
Proof. reflexivity. Qed.

Example splice_negative_counts_from_end :
  splice1 [1; 2; 3] (-1) = [1; 2].
Proof. reflexivity. Qed.

End Runs.
